(** * binance-trading-bot: RSI crossing signals and neural-network inputs

    A shallow embedding of

    - the RSI signal module, exported as [./oscillators/rsi]
      ([isBuySignal], [isSellSignal]);
    - [src/genetic/neuralNetwork.ts] ([NEURAL_NETWORK_INPUTS],
      [NUMBER_INPUTS], [getInputsFromIndicators], [getInputsFromCandles],
      [getOutputs]).

    The indicator formulas live in the external [technicalindicators]
    package.  Its RSI is written out from its specification (Wilder
    smoothing of gains and losses, exact arithmetic, no rounding of the
    result); the other indicators are parameters ([Indicators]).

    Conventions.  A JavaScript number is an exact rational ([Q]); NaN and the
    infinities are not represented, except the [-Infinity] that [Math.max]
    gives on an empty argument list.  [undefined] read out of an array is
    [None]; a function that may either return a boolean or fall off its end
    returns [option bool].  A [TypeError] raised by a property access on
    [undefined] is the [TypeError] constructor of [result]. *)

From Stdlib Require Import List ZArith QArith Lia Lqa Bool Ascii String.
Import ListNotations.

Set Implicit Arguments.

(* ================================================================== *)
(** ** JavaScript primitives used by the sources *)

Module JS.

(** [x < y] on two numbers. *)
Definition Qltb (x y : Q) : bool := negb (Qle_bool y x).

(** [a < b] where either side may be [undefined]: [undefined] converts to
    NaN and every comparison with NaN is [false]. *)
Definition lt (a b : option Q) : bool :=
  match a, b with
  | Some x, Some y => Qltb x y
  | _, _ => false
  end.

(** [a > b]. *)
Definition gt (a b : option Q) : bool := lt b a.

(** [arr[i]]: [undefined] outside [0 .. arr.length - 1]. *)
Definition index {A : Type} (arr : list A) (i : Z) : option A :=
  if (i <? 0)%Z then None else nth_error arr (Z.to_nat i).

(** [arr.length] as an integer. *)
Definition length {A : Type} (arr : list A) : Z := Z.of_nat (List.length arr).

(** [arr.slice(start)]: a negative [start] counts from the end and is
    clamped at the beginning; a non-negative one is clamped at the end. *)
Definition slice {A : Type} (start : Z) (arr : list A) : list A :=
  let len := length arr in
  let k := if (start <? 0)%Z then Z.max (len + start) 0 else Z.min start len in
  skipn (Z.to_nat k) arr.

(** [arr.find(p)]. *)
Definition find {A : Type} (p : A -> bool) (arr : list A) : option A :=
  List.find p arr.

End JS.

(* ================================================================== *)
(** ** Data model *)

(** One OHLCV bar ([ChartCandle] / [CandleData]). *)
Record Candle : Type := mkCandle {
  open : Q;
  high : Q;
  low : Q;
  close : Q;
  volume : Q;
  closeTime : Z;
  trades : Z
}.

(* ================================================================== *)
(** ** The external indicator package: RSI *)

Module RSI.

(** Successive close differences. *)
Fixpoint changes (prev : Q) (values : list Q) : list Q :=
  match values with
  | [] => []
  | v :: rest => (v - prev) :: changes v rest
  end.

(** A difference clipped to its non-negative part, and the mirror. *)
Definition gain (d : Q) : Q := if JS.Qltb 0 d then d else 0.
Definition loss (d : Q) : Q := if JS.Qltb d 0 then - d else 0.

Definition sum (values : list Q) : Q := fold_right Qplus 0 values.

(** The recursive step [out[i] = value[i]·α + out[i-1]·(1-α)]. *)
Fixpoint smooth (alpha prev : Q) (values : list Q) : list Q :=
  match values with
  | [] => []
  | v :: rest =>
      let cur := v * alpha + prev * (1 - alpha) in
      cur :: smooth alpha cur rest
  end.

(** Modelled from the spec: Wilder smoothing (RMA) of the external
    [technicalindicators] package, §4.1: empty when there are fewer than
    [period] values, seeded with the mean of the first [period] values,
    then the recursive filter with [α = 1/period]. *)
Definition RMA (values : list Q) (period : nat) : list Q :=
  if (List.length values <? period)%nat then []
  else
    let p := inject_Z (Z.of_nat period) in
    let seed := sum (firstn period values) / p in
    seed :: smooth (1 / p) seed (skipn period values).

(** [100 − 100/(1+RS)], and 100 when the average loss is zero.  [Qred]
    only writes the fraction in lowest terms. *)
Definition rsi (avgGain avgLoss : Q) : Q :=
  if Qeq_bool avgLoss 0 then 100
  else Qred (100 - 100 / (1 + avgGain / avgLoss)).

(** Modelled from the spec: [RSI.calculate({values, period})] of the
    external [technicalindicators] package, §4.3:
    [RS = RMA(gains, period) / RMA(losses, period)] over the successive
    close differences. *)
Definition calculate (values : list Q) (period : nat) : list Q :=
  match values with
  | [] => []
  | v :: rest =>
      let ch := changes v rest in
      map (fun gl => rsi (fst gl) (snd gl))
          (combine (RMA (map gain ch) period) (RMA (map loss ch) period))
  end.

End RSI.

(* ================================================================== *)
(** ** The RSI signal module *)

Module RsiSignal.

Definition RSI_PERIOD : nat := 14.
Definition RSI_OVERBOUGHT : Q := 75.
Definition RSI_OVERSOLD : Q := 35.

(** Return true if the RSI crosses up the oversold zone line.  The result
    is [None] when the function falls off its end ([undefined]). *)
Definition isBuySignal (candles : list Candle) : option bool :=
  if (RSI_PERIOD <=? List.length candles)%nat then
    let values := RSI.calculate (map close candles) RSI_PERIOD in
    let last := JS.index values (JS.length values - 2) in
    let current := JS.index values (JS.length values - 1) in
    Some (JS.lt last (Some RSI_OVERSOLD) && JS.gt current (Some RSI_OVERSOLD))
  else None.

(** Return true if the RSI crosses down the overbought zone line. *)
Definition isSellSignal (candles : list Candle) : option bool :=
  if (RSI_PERIOD <=? List.length candles)%nat then
    let values := RSI.calculate (map close candles) RSI_PERIOD in
    let last := JS.index values (JS.length values - 2) in
    let current := JS.index values (JS.length values - 1) in
    Some (JS.gt last (Some RSI_OVERBOUGHT) && JS.lt current (Some RSI_OVERBOUGHT))
  else None.

End RsiSignal.

(* ================================================================== *)
(** ** Exceptions *)

(** The outcome of a call that may raise a [TypeError] (a property read on
    [undefined]). *)
Inductive result (A : Type) : Type :=
| Ok (a : A)
| TypeError.

Arguments Ok {A} a.
Arguments TypeError {A}.

Definition bind {A B : Type} (r : result A) (k : A -> result B) : result B :=
  match r with
  | Ok a => k a
  | TypeError => TypeError
  end.

Notation "x <- r ;; k" := (bind r (fun x => k))
  (at level 61, r at next level, right associativity).

(** [o.field] where [o] may be [undefined]. *)
Definition prop {A : Type} (o : option A) : result A :=
  match o with
  | Some a => Ok a
  | None => TypeError
  end.

(* ================================================================== *)
(** ** src/genetic/neuralNetwork.ts: data *)

(** An element of the input array: [null] for a disabled indicator,
    [undefined] for a missing last value, or a number. *)
Inductive JSValue : Type :=
| JNull
| JUndefined
| JNumber (q : Q).

Definition of_option (o : option Q) : JSValue :=
  match o with
  | Some q => JNumber q
  | None => JUndefined
  end.

(** [i !== null]. *)
Definition not_null (i : JSValue) : bool :=
  match i with
  | JNull => false
  | _ => true
  end.

Module Balance.
Record t : Type := mk { symbol : string; quantity : Q }.
End Balance.

Module Wallet.
Record t : Type := mk { balances : list Balance.t }.
End Wallet.

Module Position.
Record t : Type := mk { pair : string; size : Q }.
End Position.

Module FuturesWallet.
Record t : Type := mk { positions : list Position.t }.
End FuturesWallet.

(** [extra: { wallet?: Wallet; futuresWallet?: FuturesWallet }]. *)
Record Extra : Type := mkExtra {
  wallet : option Wallet.t;
  futuresWallet : option FuturesWallet.t
}.

(** [BotConfig['genetic']['neural_network']]: a key of [indicator_inputs]
    may be missing from the configuration ([None]). *)
Module Config.

Record IndicatorInputs : Type := mkIndicatorInputs {
  EMA21 : option bool;
  EMA50 : option bool;
  EMA100 : option bool;
  ADX : option bool;
  AO : option bool;
  CCI : option bool;
  MFI : option bool;
  ROC : option bool;
  RSI : option bool;
  WILLIAM_R : option bool;
  KIJUN : option bool;
  VWAP : option bool;
  VOL_OSC : option bool;
  VOL : option bool
}.

Record CandleInputs : Type := mkCandleInputs {
  length : Z;
  source : string
}.

Record NeuralNetwork : Type := mkNeuralNetwork {
  inputs_mode : string;
  candle_inputs : CandleInputs;
  indicator_inputs : IndicatorInputs
}.

End Config.

(** Results of the external package that are objects. *)
Module ADXOutput.
Record t : Type := mk { adx : Q; pdi : Q; mdi : Q }.
End ADXOutput.

Module IchimokuCloudOutput.
Record t : Type := mk { conversion : Q; base : Q; spanA : Q; spanB : Q }.
End IchimokuCloudOutput.

(** The indicator functions imported by [neuralNetwork.ts] whose formulas
    play no part below: those of the external [technicalindicators] package
    and [calculate] of [../indicators/volumeOscillator].  They are taken as
    parameters; each argument is a field of the options object, in the order
    the source writes them. *)
Class Indicators : Type := {
  EMA_calculate : forall (period : nat) (values : list Q), list Q;
  ADX_calculate : forall (period : nat) (close high low : list Q), list ADXOutput.t;
  AwesomeOscillator_calculate :
    forall (fastPeriod slowPeriod : nat) (high low : list Q), list Q;
  CCI_calculate : forall (period : nat) (close high low : list Q), list Q;
  MFI_calculate : forall (period : nat) (volume close high low : list Q), list Q;
  ROC_calculate : forall (period : nat) (values : list Q), list Q;
  WilliamsR_calculate : forall (period : nat) (close high low : list Q), list Q;
  IchimokuCloud_calculate :
    forall (conversionPeriod basePeriod spanPeriod displacement : nat)
           (high low : list Q), list IchimokuCloudOutput.t;
  VWAP_calculate : forall (close high low volume : list Q), list Q;
  volumeOscillator_calculate :
    forall (shortLength longLength : nat) (candles : list Candle), list Q
}.

(** [brain: NeuralNetwork] of [../lib/neuralNetwork], through its only
    method used here. *)
Record NeuralNetwork : Type := mkNeuralNetwork {
  predict : list JSValue -> list Q
}.

Inductive Action : Type := BUY | SELL | CLOSE.

(* ================================================================== *)
(** ** src/genetic/neuralNetwork.ts: configuration constants *)

(** [x || false] on a configuration entry that is a boolean or missing. *)
Definition or_false (x : option bool) : bool :=
  match x with
  | Some true => true
  | _ => false
  end.

Module Inputs.
Record t : Type := mk {
  EMA21 : bool;
  EMA50 : bool;
  EMA100 : bool;
  ADX : bool;
  AO : bool;
  CCI : bool;
  MFI : bool;
  ROC : bool;
  RSI : bool;
  WILLIAM_R : bool;
  KIJUN : bool;
  VWAP : bool;
  VOL_OSC : bool;
  VOL : bool
}.

(** [Object.entries], in the order the keys are written. *)
Definition entries (o : t) : list (string * bool) :=
  [ ("EMA21", EMA21 o); ("EMA50", EMA50 o); ("EMA100", EMA100 o);
    ("ADX", ADX o); ("AO", AO o); ("CCI", CCI o); ("MFI", MFI o);
    ("ROC", ROC o); ("RSI", RSI o); ("WILLIAM_R", WILLIAM_R o);
    ("KIJUN", KIJUN o); ("VWAP", VWAP o); ("VOL_OSC", VOL_OSC o);
    ("VOL", VOL o) ]%string.
End Inputs.

Definition NEURAL_NETWORK_INPUTS_MODE (cfg : Config.NeuralNetwork) : string :=
  Config.inputs_mode cfg.

Definition CANDLE_LENGTH_INPUTS (cfg : Config.NeuralNetwork) : Z :=
  Config.length (Config.candle_inputs cfg).

Definition CANDLE_SOURCE (cfg : Config.NeuralNetwork) : string :=
  Config.source (Config.candle_inputs cfg).

(** Configure the inputs of the neural network.  The [KIJUN] entry reads the
    ['EMA21'] key of the configuration, as the source does. *)
Definition NEURAL_NETWORK_INPUTS (cfg : Config.NeuralNetwork) : Inputs.t :=
  let IndicatorInputsConfig := Config.indicator_inputs cfg in
  {| Inputs.EMA21 := or_false (Config.EMA21 IndicatorInputsConfig);
     Inputs.EMA50 := or_false (Config.EMA50 IndicatorInputsConfig);
     Inputs.EMA100 := or_false (Config.EMA100 IndicatorInputsConfig);
     Inputs.ADX := or_false (Config.ADX IndicatorInputsConfig);
     Inputs.AO := or_false (Config.AO IndicatorInputsConfig);
     Inputs.CCI := or_false (Config.CCI IndicatorInputsConfig);
     Inputs.MFI := or_false (Config.MFI IndicatorInputsConfig);
     Inputs.ROC := or_false (Config.ROC IndicatorInputsConfig);
     Inputs.RSI := or_false (Config.RSI IndicatorInputsConfig);
     Inputs.WILLIAM_R := or_false (Config.WILLIAM_R IndicatorInputsConfig);
     Inputs.KIJUN := or_false (Config.EMA21 IndicatorInputsConfig);
     Inputs.VWAP := or_false (Config.VWAP IndicatorInputsConfig);
     Inputs.VOL_OSC := or_false (Config.VOL_OSC IndicatorInputsConfig);
     Inputs.VOL := or_false (Config.VOL IndicatorInputsConfig) |}.

Definition NUMBER_INPUTS (cfg : Config.NeuralNetwork) : nat :=
  if String.eqb (NEURAL_NETWORK_INPUTS_MODE cfg) "candles" then 21%nat
  else
    (List.length
       (filter (fun kv => Bool.eqb (snd kv) true)
               (Inputs.entries (NEURAL_NETWORK_INPUTS cfg))) + 1)%nat.

Definition NUMBER_HIDDEN_NODES (cfg : Config.NeuralNetwork) : nat :=
  NUMBER_INPUTS cfg.

Definition NUMBER_OUTPUTS : nat := 3.

(* ================================================================== *)
(** ** src/genetic/neuralNetwork.ts: functions *)

(** [xs.slice(-1)[0]]: the last value, [undefined] on an empty array. *)
Definition last_item {A : Type} (xs : list A) : option A :=
  JS.index (JS.slice (-1) xs) 0.

(** "Currently holding a trade/position?": the block that opens
    [getInputsFromCandles] and closes the computations of
    [getInputsFromIndicators].  [find] gives [undefined] when no entry is
    for [pair], and reading [quantity] or [size] of it raises. *)
Definition holdingTrade (pair : string) (extra : Extra) : result bool :=
  holding <-
    match wallet extra with
    | Some w =>
        balance <- prop (JS.find (fun bal => String.eqb (Balance.symbol bal) pair)
                                 (Wallet.balances w)) ;;
        Ok (JS.Qltb 0 (Balance.quantity balance))
    | None => Ok false
    end ;;
  match futuresWallet extra with
  | Some fw =>
      position <- prop (JS.find (fun pos => String.eqb (Position.pair pos) pair)
                                (FuturesWallet.positions fw)) ;;
      Ok (negb (Qeq_bool (Position.size position) 0))
  | None => Ok holding
  end.

(** [holdingTrade ? 1 : 0]. *)
Definition flag (holding : bool) : Q := if holding then 1 else 0.

(** Generate the inputs of neural network from indicators. *)
Definition getInputsFromIndicators `{Indicators} (cfg : Config.NeuralNetwork)
    (pair : string) (candles : list Candle) (extra : Extra)
  : result (list JSValue) :=
  let N := NEURAL_NETWORK_INPUTS cfg in
  let closes := map close candles in
  let highs := map high candles in
  let lows := map low candles in
  let volumes := map volume candles in
  let last_candle := JS.index candles (JS.length candles - 1) in
  (* EMA21 *)
  let ema21 :=
    if Inputs.EMA21 N
    then of_option (last_item (EMA_calculate 21 (JS.slice (-21) closes)))
    else JNull in
  (* EMA50 *)
  let ema50 :=
    if Inputs.EMA50 N
    then of_option (last_item (EMA_calculate 50 (JS.slice (-50) closes)))
    else JNull in
  (* EMA100 *)
  let ema100 :=
    if Inputs.EMA100 N
    then of_option (last_item (EMA_calculate 100 (JS.slice (-100) closes)))
    else JNull in
  (* Average Directional Index *)
  adx <-
    (if Inputs.ADX N
     then
       o <- prop (last_item (ADX_calculate 14 (JS.slice (-15) closes)
                               (JS.slice (-15) highs) (JS.slice (-15) lows))) ;;
       Ok (JNumber (ADXOutput.adx o))
     else Ok JNull) ;;
  (* Awesome Indicator *)
  let ao :=
    if Inputs.AO N
    then of_option (last_item (AwesomeOscillator_calculate 5 25
                                 (JS.slice (-26) highs) (JS.slice (-26) lows)))
    else JNull in
  (* Commodity Channel Index *)
  let cci :=
    if Inputs.CCI N
    then of_option (last_item (CCI_calculate 20 (JS.slice (-21) closes)
                                 (JS.slice (-21) highs) (JS.slice (-21) lows)))
    else JNull in
  (* Money Flow Index *)
  let mfi :=
    if Inputs.MFI N
    then of_option (last_item (MFI_calculate 14 (JS.slice (-15) volumes)
                                 (JS.slice (-15) closes) (JS.slice (-15) highs)
                                 (JS.slice (-15) lows)))
    else JNull in
  (* Rate of Change *)
  let roc :=
    if Inputs.ROC N
    then of_option (last_item (ROC_calculate 9 (JS.slice (-10) closes)))
    else JNull in
  (* Relative Strengh Index *)
  let rsi :=
    if Inputs.RSI N
    then of_option (last_item (RSI.calculate (JS.slice (-15) closes) 14))
    else JNull in
  (* William R *)
  let williamR :=
    if Inputs.WILLIAM_R N
    then of_option (last_item (WilliamsR_calculate 14 (JS.slice (-15) closes)
                                 (JS.slice (-15) highs) (JS.slice (-15) lows)))
    else JNull in
  (* Ichimoku *)
  kijun <-
    (if Inputs.KIJUN N
     then
       o <- prop (last_item (IchimokuCloud_calculate 9 26 52 26
                               (JS.slice (-53) highs) (JS.slice (-53) lows))) ;;
       Ok (JNumber (IchimokuCloudOutput.base o))
     else Ok JNull) ;;
  (* Volume Weighted Average Price *)
  vwap <-
    (if Inputs.VWAP N
     then
       c <- prop last_candle ;;
       Ok (of_option (last_item (VWAP_calculate [close c] [high c] [low c]
                                                [volume c])))
     else Ok JNull) ;;
  (* Oscillator volume *)
  let volOsc :=
    if Inputs.VOL_OSC N
    then of_option (last_item (volumeOscillator_calculate 5 10
                                 (JS.slice (-11) candles)))
    else JNull in
  (* Trading volume *)
  vol <-
    (if Inputs.VOL N
     then c <- prop last_candle ;; Ok (JNumber (volume c))
     else Ok JNull) ;;
  (* Currently holding a trade/position? *)
  holding <- holdingTrade pair extra ;;
  (* Inputs for the neural network *)
  Ok (filter not_null
        [ ema21; ema50; ema100; adx; ao; cci; mfi; roc; rsi; williamR; vwap;
          kijun; volOsc; vol; JNumber (flag holding) ]).

(** The selected price of each candle; any unrecognised source is the
    close. *)
Definition getCandleSource (cfg : Config.NeuralNetwork) (candles : list Candle)
  : list Q :=
  let src := CANDLE_SOURCE cfg in
  if String.eqb src "open" then map open candles
  else if String.eqb src "close" then map close candles
  else if String.eqb src "high" then map high candles
  else if String.eqb src "low" then map low candles
  else if String.eqb src "hl2" then map (fun c => (high c + low c) / 2) candles
  else map close candles.

(** Generate the inputs of neural network from candles.  [length] is an
    integer. *)
Definition getInputsFromCandles (cfg : Config.NeuralNetwork) (pair : string)
    (candles : list Candle) (length : Z) (extra : Extra) : result (list Q) :=
  holding <- holdingTrade pair extra ;;
  Ok (JS.slice (- length) (getCandleSource cfg candles) ++ [flag holding]).

(** [Math.max(...xs)]: [-Infinity] on no argument. *)
Inductive MaxValue : Type :=
| NegInfinity
| Finite (q : Q).

Definition Math_max (xs : list Q) : MaxValue :=
  fold_left
    (fun m x =>
       match m with
       | NegInfinity => Finite x
       | Finite y => Finite (if JS.Qltb y x then x else y)
       end)
    xs NegInfinity.

(** [max === a] where [a] was read out of the array. *)
Definition strict_eq (max : MaxValue) (a : option Q) : bool :=
  match max, a with
  | Finite x, Some y => Qeq_bool x y
  | _, _ => false
  end.

Definition threshold : Q := 0.6.

(** Function to get the outputs of the neural network according to the
    inputs.  [Ok None] is the fall through the three tests ([undefined]). *)
Definition getOutputs `{Indicators} (cfg : Config.NeuralNetwork) (pair : string)
    (candles : list Candle) (brain : NeuralNetwork) (extra : Extra)
  : result (option Action) :=
  (* Get the inputs *)
  inputs <-
    (if String.eqb (NEURAL_NETWORK_INPUTS_MODE cfg) "candles"
     then
       xs <- getInputsFromCandles cfg pair candles 20 extra ;;
       Ok (map JNumber xs)
     else getInputsFromIndicators cfg pair candles extra) ;;
  (* Get the outputs from the network *)
  let actions := predict brain inputs in
  let max := Math_max actions in
  if strict_eq max (JS.index actions 0) && JS.gt (JS.index actions 0) (Some threshold)
  then Ok (Some BUY)
  else if strict_eq max (JS.index actions 1) && JS.gt (JS.index actions 1) (Some threshold)
  then Ok (Some SELL)
  else if strict_eq max (JS.index actions 2) && JS.gt (JS.index actions 2) (Some threshold)
  then Ok (Some CLOSE)
  else Ok None.

(* ================================================================== *)
(** ** Example inputs *)

(** Candles carrying the given closes; the other prices repeat the close. *)
Definition candle_of_close (c : Q) : Candle := mkCandle c c c c 0 0%Z 0%Z.

Definition candles_of_closes (cs : list Q) : list Candle :=
  map candle_of_close cs.

(** The close sequence of the end-to-end scenario. *)
Definition drift_closes : list Q :=
  [44; 44.3; 44.1; 43.6; 44; 44.3; 45; 45.1; 45.2; 45.5; 45.1; 45.6; 46.1;
   46.8; 47.2].

(** Fourteen closes. *)
Definition fourteen_closes : list Q :=
  [44; 44.3; 44.1; 43.6; 44; 44.3; 45; 45.1; 45.2; 45.5; 45.1; 45.6; 46.1;
   46.8].

(** Sixteen closes whose RSI series is 35 then 57.75. *)
Definition touch_closes : list Q :=
  [100; 107; 94; 94; 94; 94; 94; 94; 94; 94; 94; 94; 94; 94; 94; 104].

(** Sixteen closes whose RSI series is 30 then 40. *)
Definition closes_30_40 : list Q :=
  [100; 103; 96; 96; 96; 96; 96; 96; 96; 96; 96; 96; 96; 96; 96; 4097 # 42].

(** Sixteen closes whose RSI series is 80 then 60. *)
Definition closes_80_60 : list Q :=
  [100; 108; 106; 106; 106; 106; 106; 106; 106; 106; 106; 106; 106; 106; 106;
   2161 # 21].

(** Candles carrying the given closes with a high, a low, a volume and a
    time stamp of their own. *)
Definition wide_candles (cs : list Q) : list Candle :=
  map (fun c => mkCandle c (c + 1) (c - 1) c 250 7%Z 3%Z) cs.

(** ** Vocabulary of the statements *)

(** The 14-period RSI series of a candle list, and its two trailing
    points, as [isBuySignal] and [isSellSignal] read them. *)
Definition rsi_series (candles : list Candle) : list Q :=
  RSI.calculate (map close candles) RsiSignal.RSI_PERIOD.

Definition previous (values : list Q) : option Q :=
  JS.index values (JS.length values - 2).

Definition current (values : list Q) : option Q :=
  JS.index values (JS.length values - 1).

(** The initialiser of [inputs] in [getOutputs]. *)
Definition networkInputs `{Indicators} (cfg : Config.NeuralNetwork)
    (pair : string) (candles : list Candle) (extra : Extra)
  : result (list JSValue) :=
  if String.eqb (NEURAL_NETWORK_INPUTS_MODE cfg) "candles"
  then
    xs <- getInputsFromCandles cfg pair candles 20 extra ;;
    Ok (map JNumber xs)
  else getInputsFromIndicators cfg pair candles extra.

(** Output [i] of the network is the maximum of the outputs and strictly
    above 0.6. *)
Definition maximal_above (actions : list Q) (i : Z) : Prop :=
  exists a : Q,
    JS.index actions i = Some a
    /\ (forall x, In x actions -> x <= a)
    /\ threshold < a.

(** The cases in which [getInputsFromIndicators] reads a property of
    [undefined]. *)
Definition raises `{Indicators} (cfg : Config.NeuralNetwork) (pair : string)
    (candles : list Candle) (extra : Extra) : Prop :=
  let N := NEURAL_NETWORK_INPUTS cfg in
  (Inputs.ADX N = true
   /\ ADX_calculate 14 (JS.slice (-15) (map close candles))
        (JS.slice (-15) (map high candles)) (JS.slice (-15) (map low candles)) = [])
  \/ (Inputs.KIJUN N = true
      /\ IchimokuCloud_calculate 9 26 52 26 (JS.slice (-53) (map high candles))
           (JS.slice (-53) (map low candles)) = [])
  \/ (Inputs.VWAP N = true /\ candles = [])
  \/ (Inputs.VOL N = true /\ candles = [])
  \/ holdingTrade pair extra = TypeError.

(** The last [n] elements of a list (all of it when it is shorter). *)
Definition lastn {A : Type} (n : nat) (xs : list A) : list A :=
  skipn (List.length xs - n) xs.

(** The price a source name selects: open, close, high, low or hl2, and the
    close for any other name. *)
Definition source_value (src : string) (c : Candle) : Q :=
  if String.eqb src "open" then open c
  else if String.eqb src "high" then high c
  else if String.eqb src "low" then low c
  else if String.eqb src "hl2" then (high c + low c) / 2
  else close c.

(** The candle inputs as C10 words them: the last [min(length, len)] values
    of the selected source, then the holding flag. *)
Definition claimed_candle_inputs (cfg : Config.NeuralNetwork)
    (candles : list Candle) (length : Z) (holding : bool) : list Q :=
  lastn (Z.to_nat (Z.min length (JS.length candles)))
        (map (source_value (CANDLE_SOURCE cfg)) candles)
  ++ [flag holding].

(** ** Example configurations *)

Definition no_extra : Extra := mkExtra None None.

Definition all_missing : Config.IndicatorInputs :=
  Config.mkIndicatorInputs None None None None None None None None None None
                           None None None None.

Definition indicator_mode (inputs : Config.IndicatorInputs)
  : Config.NeuralNetwork :=
  Config.mkNeuralNetwork "indicators" (Config.mkCandleInputs 20 "close") inputs.

(** Only [KIJUN] is switched on; [EMA21] is explicitly off. *)
Definition cfg_KIJUN_only : Config.NeuralNetwork :=
  indicator_mode
    (Config.mkIndicatorInputs (Some false) None None None None None None None
                              None None (Some true) None None None).

(** Only [EMA21] is switched on; [KIJUN] is explicitly off. *)
Definition cfg_EMA21_only : Config.NeuralNetwork :=
  indicator_mode
    (Config.mkIndicatorInputs (Some true) None None None None None None None
                              None None (Some false) None None None).

(** Only [VOL] is switched on. *)
Definition cfg_VOL_only : Config.NeuralNetwork :=
  indicator_mode
    (Config.mkIndicatorInputs None None None None None None None None None
                              None None None None (Some true)).

(** [RSI] and [VOL] are switched on. *)
Definition cfg_RSI_VOL : Config.NeuralNetwork :=
  indicator_mode
    (Config.mkIndicatorInputs None None None None None None None None
                              (Some true) None None None None (Some true)).

(** Candle mode reading the close. *)
Definition cfg_candles : Config.NeuralNetwork :=
  Config.mkNeuralNetwork "candles" (Config.mkCandleInputs 20 "close")
                         all_missing.

(** An indicator package for examples whose configuration switches none of
    its functions on, so that none of them is called. *)
Definition not_called : Indicators :=
  {| EMA_calculate := fun _ _ => [];
     ADX_calculate := fun _ _ _ _ => [];
     AwesomeOscillator_calculate := fun _ _ _ _ => [];
     CCI_calculate := fun _ _ _ _ => [];
     MFI_calculate := fun _ _ _ _ _ => [];
     ROC_calculate := fun _ _ => [];
     WilliamsR_calculate := fun _ _ _ _ => [];
     IchimokuCloud_calculate := fun _ _ _ _ _ _ => [];
     VWAP_calculate := fun _ _ _ _ => [];
     volumeOscillator_calculate := fun _ _ _ => [] |}.

(** A network whose three outputs do not depend on its inputs. *)
Definition constant_brain (outputs : list Q) : NeuralNetwork :=
  mkNeuralNetwork (fun _ => outputs).

(* ================================================================== *)
(** ** The trading loop: signals, candle history and order quantity *)

(** [a || b] on two results that are a boolean or [undefined]: the left
    operand when it is truthy, the right operand otherwise. *)
Definition js_or (a b : option bool) : option bool :=
  match a with
  | Some true => a
  | _ => b
  end.

(** The signal functions of the [SMA] module of [./indicators], which the
    trading loop combines with the RSI ones; they are parameters. *)
Class SmaSignal : Type := {
  SMA_isBuySignal : list Candle -> option bool;
  SMA_isSellSignal : list Candle -> option bool
}.

Module Bot.

(** [RSI.isBuySignal(candles) || SMA.isBuySignal(candles)]; the local
    [data] object of the source is built and never read. *)
Definition isBuySignal `{SmaSignal} (candles : list Candle) : option bool :=
  js_or (RsiSignal.isBuySignal candles) (SMA_isBuySignal candles).

Definition isSellSignal `{SmaSignal} (candles : list Candle) : option bool :=
  js_or (RsiSignal.isSellSignal candles) (SMA_isSellSignal candles).

End Bot.

(** A candle of the websocket stream; [bar] holds its prices after the
    [Number] conversions of [ChartCandle]. *)
Record WsCandle : Type := mkWsCandle {
  isFinal : bool;
  bar : Candle
}.

Definition ChartCandle (candle : WsCandle) : Candle := bar candle.

(** [historyCandles]: the candle array of each pair, [undefined] for a pair
    that [prepare] did not initialise. *)
Definition History : Type := string -> option (list Candle).

Definition set_history (h : History) (pair : string) (cs : list Candle)
  : History :=
  fun p => if String.eqb p pair then Some cs else h p.

(** The arguments with which the callback calls [tradeWithSpot] or
    [tradeWithFutures]. *)
Record TradeCall : Type := mkTradeCall {
  call_candles : list Candle;
  realtimePrice : Q
}.

(** The websocket callback of [run] for one pair.  [candles.push] appends
    to the array that [historyCandles[pair]] holds, so the history sees it;
    [candles = candles.slice(1)] only rebinds the local variable to a copy
    without the first element, which is what the trade function gets. *)
Definition onCandle (pair : string) (h : History) (candle : WsCandle)
  : result (History * option TradeCall) :=
  let candles := h pair in
  if isFinal candle then
    arr <- prop candles ;;
    let pushed := arr ++ [ChartCandle candle] in
    let h' := set_history h pair pushed in
    let candles := JS.slice 1 pushed in
    Ok (h', Some (mkTradeCall candles (close (bar candle))))
  else Ok (h, None).

(** The callback run over the candles the stream delivers, in order, with
    the trade calls it makes. *)
Fixpoint feed (pair : string) (h : History) (stream : list WsCandle)
  : result (History * list TradeCall) :=
  match stream with
  | [] => Ok (h, [])
  | candle :: rest =>
      step <- onCandle pair h candle ;;
      next <- feed pair (fst step) rest ;;
      Ok (fst next,
          match snd step with
          | Some call => call :: snd next
          | None => snd next
          end)
  end.

(** [loadCandles], once the request has resolved with [candles] (already
    converted by [ChartCandle]): the history keeps the last
    [MAX_CANDLES_HISTORY] of them. *)
Definition loadCandles (MAX_CANDLES_HISTORY : Z) (h : History)
    (symbol : string) (candles : list Candle) : History :=
  set_history h symbol (JS.slice (- MAX_CANDLES_HISTORY) candles).

(** [s.split(sep)] for a separator of one character. *)
Fixpoint split (sep : ascii) (s : string) : list string :=
  match s with
  | EmptyString => [EmptyString]
  | String c rest =>
      if Ascii.eqb c sep then EmptyString :: split sep rest
      else
        match split sep rest with
        | [] => [String c EmptyString]
        | part :: parts => String c part :: parts
        end
  end.

(** [s.split('.').length === 2 ? s.split('.')[1].length : 0], the
    expression of [getPrecision] and of [getQuantity]. *)
Definition decimals (s : string) : nat :=
  let parts := split "." s in
  if (List.length parts =? 2)%nat
  then String.length (nth 1 parts EmptyString)
  else 0%nat.

(** The conversions between numbers and strings, which depend on the
    floating-point representation; they are parameters. *)
Class NumberFormat : Type := {
  JS_Number : string -> Q;
  toString : Q -> string;
  toFixed : Q -> nat -> string
}.

(** Get the number of decimals. *)
Definition getPrecision `{NumberFormat} (number : Q) : nat :=
  decimals (toString number).

Module SymbolFilter.
Record t : Type := mk { filterType : string; minQty : string }.
End SymbolFilter.

Module ExchangeSymbol.
Record t : Type := mk { symbol : string; filters : list SymbolFilter.t }.
End ExchangeSymbol.

Record ExchangeInfo : Type := mkExchangeInfo {
  symbols : list ExchangeSymbol.t
}.

(** Get the quantity of a crypto to trade according to the available
    balance, the allocation to take, and the price of the crypto. *)
Definition getQuantity `{NumberFormat} (pair : string)
    (availableBalance allocation price : Q) (exchangeInfo : ExchangeInfo)
  : result Q :=
  sym <- prop (JS.find (fun symbol => String.eqb (ExchangeSymbol.symbol symbol) pair)
                       (symbols exchangeInfo)) ;;
  lot <- prop (JS.find (fun filter =>
                          String.eqb (SymbolFilter.filterType filter) "LOT_SIZE")
                       (ExchangeSymbol.filters sym)) ;;
  let minQuantity := JS_Number (SymbolFilter.minQty lot) in
  (* Get the number of decimals *)
  let minQuantityFormatted := toString minQuantity in
  let minQuantityPrecision := decimals minQuantityFormatted in
  let quantity :=
    JS_Number (toFixed ((availableBalance * allocation) / price)
                       minQuantityPrecision) in
  Ok (if JS.Qltb minQuantity quantity then quantity else minQuantity).

(** ** Further vocabulary and examples *)

(** The configuration with its [KIJUN] key replaced. *)
Definition with_KIJUN (v : option bool) (cfg : Config.NeuralNetwork)
  : Config.NeuralNetwork :=
  let i := Config.indicator_inputs cfg in
  Config.mkNeuralNetwork (Config.inputs_mode cfg) (Config.candle_inputs cfg)
    (Config.mkIndicatorInputs
       (Config.EMA21 i) (Config.EMA50 i) (Config.EMA100 i) (Config.ADX i)
       (Config.AO i) (Config.CCI i) (Config.MFI i) (Config.ROC i)
       (Config.RSI i) (Config.WILLIAM_R i) v (Config.VWAP i)
       (Config.VOL_OSC i) (Config.VOL i)).

(** No character of [s] is a dot. *)
Fixpoint dotless (s : string) : bool :=
  match s with
  | EmptyString => true
  | String c rest => negb (Ascii.eqb c ".") && dotless rest
  end.

(** The bars of the final candles of a stream. *)
Definition finals (stream : list WsCandle) : list Candle :=
  map ChartCandle (filter isFinal stream).

(** An SMA module that never gives a verdict. *)
Definition silent_sma : SmaSignal :=
  {| SMA_isBuySignal := fun _ => None; SMA_isSellSignal := fun _ => None |}.

(** A history holding three candles for BTCUSDT and nothing else. *)
Definition example_history : History :=
  set_history (fun _ => None) "BTCUSDT" (candles_of_closes [100; 101; 102]).

(** A stream of two final candles around one that is still open. *)
Definition example_stream : list WsCandle :=
  [ mkWsCandle true (candle_of_close 103);
    mkWsCandle false (candle_of_close 104);
    mkWsCandle true (candle_of_close 105) ].

(** The conversions on the strings and numbers of the quantity example
    only: [Number("0.00100000")] is 0.001, [String(0.001)] is ["0.001"],
    [String(0)] is ["0"], [(0.00002).toFixed(3)] is ["0.000"] and
    [Number("0.000")] is 0. *)
Definition example_format : NumberFormat :=
  {| JS_Number := fun s => if String.eqb s "0.00100000" then 0.001 else 0;
     toString := fun q => if Qeq_bool q 0.001 then "0.001"%string else "0"%string;
     toFixed := fun _ _ => "0.000"%string |}.

Definition example_exchange : ExchangeInfo :=
  mkExchangeInfo
    [ ExchangeSymbol.mk "ETHUSDT" [SymbolFilter.mk "LOT_SIZE" "0.00100000"];
      ExchangeSymbol.mk "BTCUSDT"
        [ SymbolFilter.mk "PRICE_FILTER" "0.01000000";
          SymbolFilter.mk "LOT_SIZE" "0.00100000" ] ].

(** A spot wallet holding no BTCUSDT beside a futures wallet with a short
    BTCUSDT position. *)
Definition example_wallets : Extra :=
  mkExtra (Some (Wallet.mk [Balance.mk "BTCUSDT" 0]))
          (Some (FuturesWallet.mk [Position.mk "ETHUSDT" 0;
                                   Position.mk "BTCUSDT" (-2)])).

(* ================================================================== *)
(** ** The RSI signal module as calls in a state *)

(** The external package with nothing assumed about what it keeps between
    two calls: [RSI.calculate] runs in a state of the package and leaves
    one, beside the series it returns. *)
Record Package : Type := mkPackage {
  PackageState : Type;
  RSI_calculate : PackageState -> list Q -> nat -> PackageState * list Q
}.


(** What the module declares at its top level and every call reads: the
    three [const] bindings. *)
Record ModuleScope : Type := mkModuleScope {
  scope_RSI_PERIOD : nat;
  scope_RSI_OVERBOUGHT : Q;
  scope_RSI_OVERSOLD : Q
}.

(** The scope as the three declarations leave it when the module loads. *)
Definition module_scope : ModuleScope :=
  mkModuleScope RsiSignal.RSI_PERIOD RsiSignal.RSI_OVERBOUGHT
                RsiSignal.RSI_OVERSOLD.

(** All that outlives a call: the scope of the module and the state of the
    package. *)
Record World (P : Package) : Type := mkWorld {
  scope : ModuleScope;
  package : PackageState P
}.

Module Stateful.

(** [isBuySignal] as one call among others: it runs in a world and returns
    the world it leaves with its result.  It reads the constants from the
    scope, assigns to none of them, and below the guard does not call the
    package. *)
Definition isBuySignal (P : Package) (w : World P) (candles : list Candle)
  : World P * option bool :=
  if (scope_RSI_PERIOD (scope w) <=? List.length candles)%nat then
    let call := @RSI_calculate P (package w) (map close candles)
                  (scope_RSI_PERIOD (scope w)) in
    let values := snd call in
    let last := JS.index values (JS.length values - 2) in
    let current := JS.index values (JS.length values - 1) in
    (mkWorld P (scope w) (fst call),
     Some (JS.lt last (Some (scope_RSI_OVERSOLD (scope w)))
           && JS.gt current (Some (scope_RSI_OVERSOLD (scope w)))))
  else (w, None).

Definition isSellSignal (P : Package) (w : World P) (candles : list Candle)
  : World P * option bool :=
  if (scope_RSI_PERIOD (scope w) <=? List.length candles)%nat then
    let call := @RSI_calculate P (package w) (map close candles)
                  (scope_RSI_PERIOD (scope w)) in
    let values := snd call in
    let last := JS.index values (JS.length values - 2) in
    let current := JS.index values (JS.length values - 1) in
    (mkWorld P (scope w) (fst call),
     Some (JS.gt last (Some (scope_RSI_OVERBOUGHT (scope w)))
           && JS.lt current (Some (scope_RSI_OVERBOUGHT (scope w)))))
  else (w, None).

End Stateful.




(* ================================================================== *)
(** * Properties *)

(** ** Comparisons and array reads *)

Lemma Qltb_iff (x y : Q) : JS.Qltb x y = true <-> x < y.
Proof.
  unfold JS.Qltb. rewrite negb_true_iff, <- not_true_iff_false, Qle_bool_iff.
  split; [apply Qnot_le_lt | apply Qlt_not_le].
Qed.

Lemma lt_Some (x y : Q) : JS.lt (Some x) (Some y) = true <-> x < y.
Proof. apply Qltb_iff. Qed.

Lemma gt_Some (x y : Q) : JS.gt (Some x) (Some y) = true <-> y < x.
Proof. apply Qltb_iff. Qed.

Lemma index_Some_length {A : Type} (arr : list A) (i : Z) (a : A) :
  JS.index arr i = Some a -> (0 <= i < JS.length arr)%Z.
Proof.
  unfold JS.index, JS.length. destruct (Z.ltb_spec i 0); [discriminate|].
  intros E. assert (Hn : nth_error arr (Z.to_nat i) <> None) by congruence.
  apply nth_error_Some in Hn. lia.
Qed.

(** ** Length of the RSI series *)

Lemma changes_length (prev : Q) (values : list Q) :
  List.length (RSI.changes prev values) = List.length values.
Proof.
  revert prev. induction values as [|v rest IH]; intros prev; simpl; auto.
Qed.

Lemma smooth_length (alpha prev : Q) (values : list Q) :
  List.length (RSI.smooth alpha prev values) = List.length values.
Proof.
  revert prev. induction values as [|v rest IH]; intros prev; simpl; auto.
Qed.

Lemma RMA_length (values : list Q) (period : nat) :
  List.length (RSI.RMA values period) =
  if (List.length values <? period)%nat then 0%nat
  else S (List.length values - period).
Proof.
  unfold RSI.RMA. destruct (List.length values <? period)%nat; [reflexivity|].
  simpl. now rewrite smooth_length, length_skipn.
Qed.

(** [n] closes give [n - period] RSI values (none when [n <= period]). *)
Lemma calculate_length (values : list Q) (period : nat) :
  List.length (RSI.calculate values period) = (List.length values - period)%nat.
Proof.
  destruct values as [|v rest]; [reflexivity|].
  unfold RSI.calculate.
  rewrite length_map, length_combine, !RMA_length, !length_map, changes_length.
  simpl List.length.
  destruct (Nat.ltb_spec (List.length rest) period); lia.
Qed.

Lemma guard_of_two_values (candles : list Candle) (i : Z) (a : Q) :
  JS.index (RSI.calculate (map close candles) RsiSignal.RSI_PERIOD) i = Some a ->
  (RsiSignal.RSI_PERIOD <=? List.length candles)%nat = true.
Proof.
  intros E. apply index_Some_length in E. unfold JS.length in E.
  rewrite calculate_length, length_map in E.
  apply Nat.leb_le. lia.
Qed.

Lemma rsi_series_nil (candles : list Candle) :
  (List.length candles <= 14)%nat -> rsi_series candles = [].
Proof.
  intros H. apply length_zero_iff_nil. unfold rsi_series.
  rewrite calculate_length, length_map. unfold RsiSignal.RSI_PERIOD. lia.
Qed.

Lemma isBuySignal_guarded (candles : list Candle) :
  (RsiSignal.RSI_PERIOD <=? List.length candles)%nat = true ->
  RsiSignal.isBuySignal candles =
  Some (JS.lt (previous (rsi_series candles)) (Some RsiSignal.RSI_OVERSOLD)
        && JS.gt (current (rsi_series candles)) (Some RsiSignal.RSI_OVERSOLD)).
Proof. intros G. unfold RsiSignal.isBuySignal. now rewrite G. Qed.

Lemma isSellSignal_guarded (candles : list Candle) :
  (RsiSignal.RSI_PERIOD <=? List.length candles)%nat = true ->
  RsiSignal.isSellSignal candles =
  Some (JS.gt (previous (rsi_series candles)) (Some RsiSignal.RSI_OVERBOUGHT)
        && JS.lt (current (rsi_series candles)) (Some RsiSignal.RSI_OVERBOUGHT)).
Proof. intros G. unfold RsiSignal.isSellSignal. now rewrite G. Qed.

Lemma same_closes_same_length (c1 c2 : list Candle) :
  map close c1 = map close c2 -> List.length c1 = List.length c2.
Proof.
  intros E. rewrite <- (length_map close c1), <- (length_map close c2).
  now rewrite E.
Qed.

(** ** RSI signals *)

(** C1, as amended.  With fewer than 15 candles neither signal raises; the
    result is absent ([undefined]) exactly when there are fewer than 14
    candles, the bound of the guard, and with exactly 14 candles it is the
    boolean [false]. *)
Theorem C1_short_history (candles : list Candle) :
  (List.length candles < 15)%nat ->
  RsiSignal.isBuySignal candles =
    (if (List.length candles <? 14)%nat then None else Some false)
  /\ RsiSignal.isSellSignal candles =
    (if (List.length candles <? 14)%nat then None else Some false).
Proof.
  intros Hlen.
  unfold RsiSignal.isBuySignal, RsiSignal.isSellSignal, RsiSignal.RSI_PERIOD.
  destruct (Nat.ltb_spec (List.length candles) 14) as [Hlt|Hge].
  - assert (G : (14 <=? List.length candles)%nat = false)
      by (apply Nat.leb_gt; exact Hlt).
    rewrite G. split; reflexivity.
  - assert (G : (14 <=? List.length candles)%nat = true)
      by (apply Nat.leb_le; exact Hge).
    rewrite G.
    assert (E : RSI.calculate (map close candles) 14 = [])
      by (apply (rsi_series_nil candles); lia).
    rewrite E. split; reflexivity.
Qed.

Lemma C1_short_history_witness :
  (List.length (candles_of_closes fourteen_closes) < 15)%nat
  /\ RsiSignal.isBuySignal (candles_of_closes fourteen_closes) = Some false
  /\ RsiSignal.isSellSignal (candles_of_closes fourteen_closes) = Some false.
Proof.
  assert (H : (List.length (candles_of_closes fourteen_closes) < 15)%nat)
    by (vm_compute; lia).
  split; [exact H|].
  exact (C1_short_history (candles_of_closes fourteen_closes) H).
Defined.

(** C1 fails as stated: a list of exactly 14 candles is shorter than 15 and
    both signals return the boolean [false], not an absent result. *)
Lemma C1_counterexample :
  (List.length (candles_of_closes fourteen_closes) < 15)%nat
  /\ RsiSignal.isBuySignal (candles_of_closes fourteen_closes) <> None
  /\ RsiSignal.isSellSignal (candles_of_closes fourteen_closes) <> None.
Proof.
  split; [vm_compute; lia|].
  split; vm_compute; discriminate.
Qed.

(** C2, as amended.  When the RSI series has two trailing values,
    [isBuySignal] is true if and only if the previous value is strictly
    below 35 and the current value strictly above 35. *)
Theorem C2_buy_iff_strict_cross (candles : list Candle) (prev cur : Q) :
  previous (rsi_series candles) = Some prev ->
  current (rsi_series candles) = Some cur ->
  (RsiSignal.isBuySignal candles = Some true
   <-> prev < RsiSignal.RSI_OVERSOLD /\ RsiSignal.RSI_OVERSOLD < cur).
Proof.
  intros Hp Hc.
  rewrite (isBuySignal_guarded candles (guard_of_two_values candles _ Hp)).
  rewrite Hp, Hc. rewrite <- lt_Some, <- gt_Some, <- andb_true_iff.
  split; [intros E; now injection E | intros E; now rewrite E].
Qed.

Lemma C2_buy_iff_strict_cross_witness :
  RsiSignal.isBuySignal (candles_of_closes closes_30_40) = Some true
  <-> 30 < RsiSignal.RSI_OVERSOLD /\ RsiSignal.RSI_OVERSOLD < 40.
Proof.
  apply (C2_buy_iff_strict_cross (candles_of_closes closes_30_40));
    vm_compute; reflexivity.
Defined.

(** C2 fails as stated: on [touch_closes] the previous RSI value is exactly
    35 and the current one is 57.75, yet [isBuySignal] is false. *)
Lemma C2_counterexample :
  previous (rsi_series (candles_of_closes touch_closes)) = Some 35
  /\ current (rsi_series (candles_of_closes touch_closes)) = Some (231 # 4)
  /\ 35 <= RsiSignal.RSI_OVERSOLD
  /\ RsiSignal.RSI_OVERSOLD < 231 # 4
  /\ RsiSignal.isBuySignal (candles_of_closes touch_closes) = Some false.
Proof.
  repeat split; try (vm_compute; reflexivity).
  vm_compute; discriminate.
Qed.

(** C3, as amended.  For candles whose closes are the 15-element sequence,
    the 14-period RSI series has the single value 2150/27 (about 79.6), so
    there is no previous point, nothing crosses 35 and [isBuySignal]
    returns false. *)
Theorem C3_drift_scenario (candles : list Candle) :
  map close candles = drift_closes ->
  rsi_series candles = [2150 # 27]
  /\ RsiSignal.isBuySignal candles = Some false.
Proof.
  intros E.
  assert (L : List.length candles = 15%nat)
    by (rewrite <- (length_map close), E; reflexivity).
  unfold RsiSignal.isBuySignal, rsi_series. rewrite L, E.
  split; vm_compute; reflexivity.
Qed.

Lemma C3_drift_scenario_witness :
  map close (candles_of_closes drift_closes) = drift_closes
  /\ rsi_series (candles_of_closes drift_closes) = [2150 # 27]
  /\ RsiSignal.isBuySignal (candles_of_closes drift_closes) = Some false.
Proof.
  assert (E : map close (candles_of_closes drift_closes) = drift_closes)
    by reflexivity.
  split; [exact E|].
  exact (C3_drift_scenario (candles_of_closes drift_closes) E).
Defined.

(** C3 fails as stated: on the 15 closes of the scenario [isBuySignal] does
    not return true. *)
Lemma C3_counterexample :
  map close (candles_of_closes drift_closes) =
    [44; 44.3; 44.1; 43.6; 44; 44.3; 45; 45.1; 45.2; 45.5; 45.1; 45.6; 46.1;
     46.8; 47.2]
  /\ RsiSignal.isBuySignal (candles_of_closes drift_closes) <> Some true.
Proof.
  split; [reflexivity|]. vm_compute; discriminate.
Qed.

Lemma lt_true_inv (a : option Q) (y : Q) :
  JS.lt a (Some y) = true -> exists x, a = Some x /\ x < y.
Proof.
  destruct a as [x|]; [|discriminate].
  intros E. exists x. split; [reflexivity|]. now apply lt_Some.
Qed.

Lemma gt_true_inv (a : option Q) (y : Q) :
  JS.gt a (Some y) = true -> exists x, a = Some x /\ y < x.
Proof.
  destruct a as [x|]; [|discriminate].
  intros E. exists x. split; [reflexivity|]. now apply gt_Some.
Qed.

(** C5.  No candle list makes both signals true: a buy needs the previous
    RSI value below 35, a sell needs the same value above 75. *)
Theorem C5_signals_exclusive (candles : list Candle) :
  RsiSignal.isBuySignal candles = Some true ->
  RsiSignal.isSellSignal candles <> Some true.
Proof.
  unfold RsiSignal.isBuySignal, RsiSignal.isSellSignal.
  destruct (RsiSignal.RSI_PERIOD <=? List.length candles)%nat; [|discriminate].
  intros B S. injection B as B. injection S as S.
  apply andb_true_iff in B as [B _]. apply andb_true_iff in S as [S _].
  apply lt_true_inv in B as (x & Ex & Hx).
  apply gt_true_inv in S as (y & Ey & Hy).
  rewrite Ex in Ey. injection Ey as <-.
  unfold RsiSignal.RSI_OVERSOLD in Hx. unfold RsiSignal.RSI_OVERBOUGHT in Hy.
  lra.
Qed.

Lemma C5_signals_exclusive_witness :
  RsiSignal.isBuySignal (candles_of_closes closes_30_40) = Some true
  /\ RsiSignal.isSellSignal (candles_of_closes closes_30_40) <> Some true.
Proof.
  assert (B : RsiSignal.isBuySignal (candles_of_closes closes_30_40) = Some true)
    by (vm_compute; reflexivity).
  split; [exact B|].
  exact (C5_signals_exclusive (candles_of_closes closes_30_40) B).
Defined.

(** C6.  When the RSI series has two trailing values: previous above 75 and
    current below 75 make [isSellSignal] true; previous below 35 and current
    above 35 make [isBuySignal] true. *)
Theorem C6_cross_gives_signal (candles : list Candle) (prev cur : Q) :
  previous (rsi_series candles) = Some prev ->
  current (rsi_series candles) = Some cur ->
  (RsiSignal.RSI_OVERBOUGHT < prev -> cur < RsiSignal.RSI_OVERBOUGHT ->
   RsiSignal.isSellSignal candles = Some true)
  /\ (prev < RsiSignal.RSI_OVERSOLD -> RsiSignal.RSI_OVERSOLD < cur ->
      RsiSignal.isBuySignal candles = Some true).
Proof.
  intros Hp Hc.
  pose proof (guard_of_two_values candles _ Hp) as G.
  rewrite (isBuySignal_guarded candles G), (isSellSignal_guarded candles G).
  rewrite Hp, Hc. split; intros H1 H2.
  - apply gt_Some in H1. apply lt_Some in H2. now rewrite H1, H2.
  - apply lt_Some in H1. apply gt_Some in H2. now rewrite H1, H2.
Qed.

(** The examples of C6: an RSI series ending 80, 60 sells; one ending
    30, 40 buys. *)
Lemma C6_cross_gives_signal_witness :
  (previous (rsi_series (candles_of_closes closes_80_60)) = Some 80
   /\ current (rsi_series (candles_of_closes closes_80_60)) = Some 60
   /\ RsiSignal.isSellSignal (candles_of_closes closes_80_60) = Some true)
  /\ (previous (rsi_series (candles_of_closes closes_30_40)) = Some 30
      /\ current (rsi_series (candles_of_closes closes_30_40)) = Some 40
      /\ RsiSignal.isBuySignal (candles_of_closes closes_30_40) = Some true).
Proof.
  assert (P1 : previous (rsi_series (candles_of_closes closes_80_60)) = Some 80)
    by (vm_compute; reflexivity).
  assert (C1 : current (rsi_series (candles_of_closes closes_80_60)) = Some 60)
    by (vm_compute; reflexivity).
  assert (P2 : previous (rsi_series (candles_of_closes closes_30_40)) = Some 30)
    by (vm_compute; reflexivity).
  assert (C2 : current (rsi_series (candles_of_closes closes_30_40)) = Some 40)
    by (vm_compute; reflexivity).
  split; (split; [assumption|split; [assumption|]]).
  - apply (proj1 (C6_cross_gives_signal _ P1 C1)); vm_compute; reflexivity.
  - apply (proj2 (C6_cross_gives_signal _ P2 C2)); vm_compute; reflexivity.
Defined.

Lemma signals_read_closes_only (c1 c2 : list Candle) :
  map close c1 = map close c2 ->
  RsiSignal.isBuySignal c1 = RsiSignal.isBuySignal c2
  /\ RsiSignal.isSellSignal c1 = RsiSignal.isSellSignal c2.
Proof.
  intros E. pose proof (same_closes_same_length c1 c2 E) as L.
  unfold RsiSignal.isBuySignal, RsiSignal.isSellSignal.
  rewrite E, L. split; reflexivity.
Qed.

(** In the scope the module loads with, and over a package whose series
    are those of the formulas, a call returns what the function on candles
    alone returns. *)
Lemma Stateful_agrees (P : Package) (s : PackageState P)
    (candles : list Candle) :
  (forall s' values period,
      snd (@RSI_calculate P s' values period) = RSI.calculate values period) ->
  snd (Stateful.isBuySignal (mkWorld P module_scope s) candles)
  = RsiSignal.isBuySignal candles
  /\ snd (Stateful.isSellSignal (mkWorld P module_scope s) candles)
     = RsiSignal.isSellSignal candles.
Proof.
  intros Hcalc.
  unfold Stateful.isBuySignal, Stateful.isSellSignal,
    RsiSignal.isBuySignal, RsiSignal.isSellSignal.
  cbn [scope package module_scope scope_RSI_PERIOD scope_RSI_OVERBOUGHT
       scope_RSI_OVERSOLD].
  destruct (RsiSignal.RSI_PERIOD <=? List.length candles)%nat;
    [|split; reflexivity].
  cbn [snd]. rewrite Hcalc. split; reflexivity.
Qed.






(** ** Neural-network inputs *)

Lemma not_null_of_option (o : option Q) : not_null (of_option o) = true.
Proof. now destruct o. Qed.

(** C4, the code at the failing inputs.  With only [KIJUN] switched on the
    feature vector holds the holding flag alone; with only [EMA21] switched
    on (and [KIJUN] off) it holds the Ichimoku base line next to the EMA. *)
Theorem C4_kijun_follows_EMA21 `{Indicators} (pair : string)
    (candles : list Candle) :
  Inputs.KIJUN (NEURAL_NETWORK_INPUTS cfg_KIJUN_only) = false
  /\ Inputs.KIJUN (NEURAL_NETWORK_INPUTS cfg_EMA21_only) = true
  /\ getInputsFromIndicators cfg_KIJUN_only pair candles no_extra
     = Ok [JNumber 0]
  /\ getInputsFromIndicators cfg_EMA21_only pair candles no_extra
     = (o <- prop (last_item
                     (IchimokuCloud_calculate 9 26 52 26
                        (JS.slice (-53) (map high candles))
                        (JS.slice (-53) (map low candles)))) ;;
        Ok [ of_option (last_item
                          (EMA_calculate 21 (JS.slice (-21) (map close candles))));
             JNumber (IchimokuCloudOutput.base o);
             JNumber 0 ]).
Proof.
  repeat split.
  unfold getInputsFromIndicators. cbn -[JS.slice last_item].
  destruct (last_item (IchimokuCloud_calculate _ _ _ _ _ _)); [|reflexivity].
  cbn -[JS.slice last_item].
  now rewrite not_null_of_option.
Qed.

(** ** Candle inputs *)

Lemma getCandleSource_map (cfg : Config.NeuralNetwork) (candles : list Candle) :
  getCandleSource cfg candles = map (source_value (CANDLE_SOURCE cfg)) candles.
Proof.
  unfold getCandleSource, source_value.
  destruct (String.eqb (CANDLE_SOURCE cfg) "open"); [reflexivity|].
  destruct (String.eqb_spec (CANDLE_SOURCE cfg) "close") as [E|_];
    [rewrite E; reflexivity|].
  destruct (String.eqb (CANDLE_SOURCE cfg) "high"); [reflexivity|].
  destruct (String.eqb (CANDLE_SOURCE cfg) "low"); [reflexivity|].
  destruct (String.eqb (CANDLE_SOURCE cfg) "hl2"); reflexivity.
Qed.

(** [slice(-n)] with a positive [n] keeps the last [min n len] elements. *)
Lemma slice_negative {A : Type} (n : Z) (xs : list A) :
  (0 < n)%Z ->
  JS.slice (- n) xs = lastn (Z.to_nat (Z.min n (JS.length xs))) xs.
Proof.
  intros Hn. unfold JS.slice, lastn, JS.length.
  destruct (Z.ltb_spec (- n) 0); [|lia].
  f_equal. lia.
Qed.

(** C10, as amended.  For a positive requested length, and when the
    holding-trade lookup finds its wallet entries, [getInputsFromCandles]
    returns the last [min(length, len(candles))] values of the selected
    source followed by the holding flag. *)
Theorem C10_candle_inputs (cfg : Config.NeuralNetwork) (pair : string)
    (candles : list Candle) (length : Z) (extra : Extra) (holding : bool) :
  (0 < length)%Z ->
  holdingTrade pair extra = Ok holding ->
  getInputsFromCandles cfg pair candles length extra
  = Ok (claimed_candle_inputs cfg candles length holding).
Proof.
  intros Hlen Hh. unfold getInputsFromCandles, claimed_candle_inputs.
  rewrite Hh. cbn [bind].
  rewrite getCandleSource_map, (slice_negative _ Hlen).
  unfold JS.length. now rewrite length_map.
Qed.

Lemma C10_candle_inputs_witness :
  (0 < 2)%Z
  /\ holdingTrade "BTCUSDT" no_extra = Ok false
  /\ getInputsFromCandles cfg_candles "BTCUSDT"
       (wide_candles [100; 101; 102]) 2 no_extra = Ok [101; 102; 0].
Proof.
  assert (Hl : (0 < 2)%Z) by reflexivity.
  assert (Hh : holdingTrade "BTCUSDT" no_extra = Ok false) by reflexivity.
  split; [exact Hl|]. split; [exact Hh|].
  exact (C10_candle_inputs cfg_candles "BTCUSDT" (wide_candles [100; 101; 102])
           no_extra Hl Hh).
Defined.

(** C10 fails as stated: for the requested length 0, [slice(-0)] keeps the
    whole series, where the claim keeps [min(0, 2) = 0] values. *)
Lemma C10_counterexample :
  getInputsFromCandles cfg_candles "BTCUSDT" (wide_candles [100; 101]) 0 no_extra
  = Ok [100; 101; 0]
  /\ claimed_candle_inputs cfg_candles (wide_candles [100; 101]) 0 false = [0].
Proof. split; reflexivity. Qed.

(** ** Length of the indicator inputs *)

Lemma last_item_None {A : Type} (xs : list A) : last_item xs = None <-> xs = [].
Proof.
  split; [|intros ->; reflexivity].
  unfold last_item, JS.index, JS.slice, JS.length. cbn [Z.ltb Z.compare Z.to_nat].
  destruct xs as [|x rest]; [reflexivity|]. intros E. exfalso.
  assert (L : List.length
                (skipn (Z.to_nat (Z.max (Z.of_nat (List.length (x :: rest)) + -1) 0))
                       (x :: rest)) = 1%nat).
  { rewrite length_skipn. cbn [List.length]. lia. }
  destruct (skipn _ (x :: rest)); [discriminate L|discriminate E].
Qed.

Lemma last_candle_None {A : Type} (xs : list A) :
  JS.index xs (JS.length xs - 1) = None <-> xs = [].
Proof.
  split; [|intros ->; reflexivity].
  unfold JS.index, JS.length. destruct xs as [|x rest]; [reflexivity|].
  destruct (Z.ltb_spec (Z.of_nat (List.length (x :: rest)) - 1) 0) as [H|H].
  - cbn [List.length] in H. lia.
  - intros E. apply nth_error_None in E. cbn [List.length] in *. lia.
Qed.

(** A slot computed as [flag ? f(o.field) : null]: it raises exactly when
    the flag is on and [o] is [undefined], and otherwise it is non-null
    exactly when the flag is on. *)
Lemma slot_spec {A : Type} (f : bool) (o : option A) (k : A -> JSValue)
    (r : result JSValue) :
  (forall a, not_null (k a) = true) ->
  r = (if f then a <- prop o ;; Ok (k a) else Ok JNull) ->
  (r = TypeError <-> f = true /\ o = None)
  /\ (forall v, r = Ok v -> not_null v = f).
Proof.
  intros Hk ->. destruct f; [destruct o as [a|]|]; cbn.
  - split; [split; [discriminate|intros [_ E]; discriminate E]|].
    intros v E. injection E as <-. apply Hk.
  - split; [tauto|discriminate].
  - split; [split; [discriminate|intros [E _]; discriminate E]|].
    intros v E. now injection E as <-.
Qed.

Lemma plain_slot (f : bool) (o : option Q) :
  not_null (if f then of_option o else JNull) = f.
Proof. destruct f; [apply not_null_of_option|reflexivity]. Qed.

Lemma filter_length_cons {A : Type} (p : A -> bool) (x : A) (xs : list A) :
  List.length (filter p (x :: xs)) =
  ((if p x then 1 else 0) + List.length (filter p xs))%nat.
Proof. cbn [filter]. now destruct (p x). Qed.

Lemma eqb_true (b : bool) : Bool.eqb b true = b.
Proof. now destruct b. Qed.

(** In indicator mode [NUMBER_INPUTS] is one more than the number of
    entries of [NEURAL_NETWORK_INPUTS] that are on. *)
Lemma NUMBER_INPUTS_indicators (cfg : Config.NeuralNetwork) :
  NEURAL_NETWORK_INPUTS_MODE cfg <> "candles"%string ->
  let N := NEURAL_NETWORK_INPUTS cfg in
  let n := fun b : bool => if b then 1%nat else 0%nat in
  NUMBER_INPUTS cfg =
  (n (Inputs.EMA21 N) + n (Inputs.EMA50 N) + n (Inputs.EMA100 N)
   + n (Inputs.ADX N) + n (Inputs.AO N) + n (Inputs.CCI N) + n (Inputs.MFI N)
   + n (Inputs.ROC N) + n (Inputs.RSI N) + n (Inputs.WILLIAM_R N)
   + n (Inputs.KIJUN N) + n (Inputs.VWAP N) + n (Inputs.VOL_OSC N)
   + n (Inputs.VOL N) + 1)%nat.
Proof.
  intros Hmode N n. unfold NUMBER_INPUTS.
  destruct (String.eqb_spec (NEURAL_NETWORK_INPUTS_MODE cfg) "candles");
    [contradiction|].
  fold N. unfold Inputs.entries.
  rewrite !filter_length_cons. cbn [filter List.length snd].
  rewrite !eqb_true. subst n. cbv beta. lia.
Qed.

Lemma Ok_inj {A : Type} (x y : A) : Ok x = Ok y -> x = y.
Proof. intros E. now injection E. Qed.

(** C8, as amended.  In indicator mode [getInputsFromIndicators] raises a
    [TypeError] exactly when [ADX] or [KIJUN] is on and its result array is
    empty, when [VWAP] or [VOL] is on and there is no candle, or when a
    supplied wallet has no entry for the pair; whenever it returns, the
    list has length [NUMBER_INPUTS]: a switched-off indicator leaves [null],
    which is filtered out, an [undefined] value stays, and the holding flag
    is always kept. *)
Theorem C8_indicator_inputs_length `{Indicators} (cfg : Config.NeuralNetwork)
    (pair : string) (candles : list Candle) (extra : Extra) :
  NEURAL_NETWORK_INPUTS_MODE cfg <> "candles"%string ->
  (getInputsFromIndicators cfg pair candles extra = TypeError
   <-> raises cfg pair candles extra)
  /\ (forall inputs,
        getInputsFromIndicators cfg pair candles extra = Ok inputs ->
        List.length inputs = NUMBER_INPUTS cfg).
Proof.
  intros Hmode.
  rewrite (NUMBER_INPUTS_indicators cfg Hmode). cbv zeta.
  unfold getInputsFromIndicators, raises. cbv zeta.
  set (N := NEURAL_NETWORK_INPUTS cfg).
  match goal with
  | |- context [bind ?r1 (fun adx => bind ?r2 (fun kijun => bind ?r3 (fun vwap => bind ?r4 _)))] =>
      destruct (@slot_spec _ (Inputs.ADX N) _ (fun o => JNumber (ADXOutput.adx o)) r1
                  (fun _ => eq_refl) eq_refl) as [A1 A2];
      destruct (@slot_spec _ (Inputs.KIJUN N) _
                  (fun o => JNumber (IchimokuCloudOutput.base o)) r2
                  (fun _ => eq_refl) eq_refl) as [K1 K2];
      destruct (@slot_spec _ (Inputs.VWAP N) _ _ r3
                  (fun c => not_null_of_option _) eq_refl) as [W1 W2];
      destruct (@slot_spec _ (Inputs.VOL N) _ (fun c => JNumber (volume c)) r4
                  (fun _ => eq_refl) eq_refl) as [V1 V2];
      set (radx := r1) in *; set (rkijun := r2) in *;
      set (rvwap := r3) in *; set (rvol := r4) in *
  end.
  rewrite last_item_None in A1. rewrite last_item_None in K1.
  rewrite last_candle_None in W1. rewrite last_candle_None in V1.
  clearbody radx rkijun rvwap rvol.
  destruct (holdingTrade pair extra) as [holding|] eqn:Hh;
    destruct radx as [adx|], rkijun as [kijun|], rvwap as [vwap|],
             rvol as [vol|]; cbn [bind];
    (split;
     [ split; [intros E; try discriminate E|intros R; try reflexivity];
       intuition (try discriminate; auto)
     | intros inputs E; try discriminate E ]).
  apply Ok_inj in E. rewrite <- E.
  rewrite !filter_length_cons, !plain_slot.
  rewrite (A2 _ eq_refl), (K2 _ eq_refl), (W2 _ eq_refl), (V2 _ eq_refl).
  cbn [filter List.length not_null]. lia.
Qed.

Lemma C8_indicator_inputs_length_witness :
  NEURAL_NETWORK_INPUTS_MODE cfg_RSI_VOL <> "candles"%string
  /\ @getInputsFromIndicators not_called cfg_RSI_VOL "BTCUSDT"
       (wide_candles closes_30_40) no_extra
     = Ok [JNumber (6500 # 359); JNumber 250; JNumber 0]
  /\ List.length [JNumber (6500 # 359); JNumber 250; JNumber 0]
     = NUMBER_INPUTS cfg_RSI_VOL.
Proof.
  assert (Hmode : NEURAL_NETWORK_INPUTS_MODE cfg_RSI_VOL <> "candles"%string)
    by discriminate.
  assert (E : @getInputsFromIndicators not_called cfg_RSI_VOL "BTCUSDT"
                (wide_candles closes_30_40) no_extra
              = Ok [JNumber (6500 # 359); JNumber 250; JNumber 0])
    by (vm_compute; reflexivity).
  split; [exact Hmode|]. split; [exact E|].
  exact (proj2 (@C8_indicator_inputs_length not_called cfg_RSI_VOL "BTCUSDT"
                  (wide_candles closes_30_40) no_extra Hmode) _ E).
Defined.

(** C8 fails as stated: in indicator mode with [VOL] on and an empty candle
    list, no list is returned, as reading [volume] of the missing last
    candle raises. *)
Lemma C8_counterexample :
  NEURAL_NETWORK_INPUTS_MODE cfg_VOL_only <> "candles"%string
  /\ @getInputsFromIndicators not_called cfg_VOL_only "BTCUSDT" [] no_extra
     = TypeError.
Proof. split; [discriminate|reflexivity]. Qed.

(** ** The decision of [getOutputs] *)

Lemma fold_max_Finite (xs : list Q) (a : Q) :
  exists m : Q,
    fold_left
      (fun m x =>
         match m with
         | NegInfinity => Finite x
         | Finite y => Finite (if JS.Qltb y x then x else y)
         end) xs (Finite a) = Finite m
    /\ a <= m
    /\ (forall x, In x xs -> x <= m)
    /\ (m = a \/ In m xs).
Proof.
  revert a. induction xs as [|x rest IH]; intros a.
  - exists a. cbn. repeat split; [apply Qle_refl|contradiction|now left].
  - cbn [fold_left]. destruct (JS.Qltb a x) eqn:Hlt.
    + destruct (IH x) as (m & Em & Hxm & Hall & Hin).
      exists m. apply Qltb_iff in Hlt.
      repeat split; [exact Em|lra| |].
      * intros y [<-|Hy]; [exact Hxm|now apply Hall].
      * right. destruct Hin as [->|Hin]; [now left|now right].
    + destruct (IH a) as (m & Em & Ham & Hall & Hin).
      exists m.
      assert (Hxa : x <= a).
      { apply Qnot_lt_le. intros Hax. apply Qltb_iff in Hax. congruence. }
      repeat split; [exact Em|exact Ham| |].
      * intros y [<-|Hy]; [lra|now apply Hall].
      * destruct Hin as [->|Hin]; [now left|right; now right].
Qed.

(** [Math.max] is [-Infinity] on no argument and otherwise an argument
    that no other argument exceeds. *)
Lemma Math_max_spec (xs : list Q) :
  match Math_max xs with
  | NegInfinity => xs = []
  | Finite m => In m xs /\ (forall x, In x xs -> x <= m)
  end.
Proof.
  destruct xs as [|a rest]; [reflexivity|].
  unfold Math_max. cbn [fold_left].
  destruct (fold_max_Finite rest a) as (m & -> & Ham & Hall & Hin).
  split.
  - destruct Hin as [->|Hin]; [now left|now right].
  - intros x [<-|Hx]; [exact Ham|now apply Hall].
Qed.

Lemma index_In {A : Type} (arr : list A) (i : Z) (a : A) :
  JS.index arr i = Some a -> In a arr.
Proof.
  unfold JS.index. destruct (i <? 0)%Z; [discriminate|]. apply nth_error_In.
Qed.

(** One test of [getOutputs]: [max === actions[i] && actions[i] > 0.6]. *)
Lemma test_iff_maximal_above (actions : list Q) (i : Z) :
  strict_eq (Math_max actions) (JS.index actions i)
  && JS.gt (JS.index actions i) (Some threshold) = true
  <-> maximal_above actions i.
Proof.
  pose proof (Math_max_spec actions) as Hmax.
  unfold maximal_above. rewrite andb_true_iff. split.
  - intros [Heq Hgt].
    destruct (Math_max actions) as [|m]; [discriminate Heq|].
    destruct (JS.index actions i) as [a|]; [|discriminate Heq].
    cbn in Heq. apply Qeq_bool_iff in Heq. apply gt_Some in Hgt.
    destruct Hmax as [_ Hall].
    exists a. repeat split; [|exact Hgt].
    intros x Hx. rewrite <- Heq. now apply Hall.
  - intros (a & Ei & Hall & Hgt). rewrite Ei.
    pose proof (index_In _ _ Ei) as Hin.
    destruct (Math_max actions) as [|m].
    + rewrite Hmax in Hin. contradiction.
    + destruct Hmax as [Hm Hle]. split; [|now apply gt_Some].
      cbn. apply Qeq_bool_iff. apply Qle_antisym; [now apply Hall|now apply Hle].
Qed.

Lemma test_false_iff (actions : list Q) (i : Z) :
  strict_eq (Math_max actions) (JS.index actions i)
  && JS.gt (JS.index actions i) (Some threshold) = false
  <-> ~ maximal_above actions i.
Proof. rewrite <- test_iff_maximal_above. symmetry. apply not_true_iff_false. Qed.

(** C9.  [getOutputs] raises only when the computation of the inputs does;
    otherwise it answers BUY only if the first output is the maximum and
    above 0.6, SELL only if the second is, CLOSE only if the third is, and
    it gives no decision when none of the three is. *)
Theorem C9_decision `{Indicators} (cfg : Config.NeuralNetwork) (pair : string)
    (candles : list Candle) (brain : NeuralNetwork) (extra : Extra) :
  match getOutputs cfg pair candles brain extra with
  | TypeError => networkInputs cfg pair candles extra = TypeError
  | Ok out =>
      exists inputs,
        networkInputs cfg pair candles extra = Ok inputs
        /\ match out with
           | Some BUY => maximal_above (predict brain inputs) 0
           | Some SELL => maximal_above (predict brain inputs) 1
           | Some CLOSE => maximal_above (predict brain inputs) 2
           | None =>
               ~ maximal_above (predict brain inputs) 0
               /\ ~ maximal_above (predict brain inputs) 1
               /\ ~ maximal_above (predict brain inputs) 2
           end
  end.
Proof.
  unfold getOutputs.
  change (if String.eqb (NEURAL_NETWORK_INPUTS_MODE cfg) "candles"
          then xs <- getInputsFromCandles cfg pair candles 20 extra ;;
               Ok (map JNumber xs)
          else getInputsFromIndicators cfg pair candles extra)
    with (networkInputs cfg pair candles extra).
  destruct (networkInputs cfg pair candles extra) as [inputs|];
    [|reflexivity].
  cbn [bind].
  destruct (strict_eq _ (JS.index (predict brain inputs) 0) && _) eqn:T0.
  { exists inputs. split; [reflexivity|]. now apply test_iff_maximal_above. }
  destruct (strict_eq _ (JS.index (predict brain inputs) 1) && _) eqn:T1.
  { exists inputs. split; [reflexivity|]. now apply test_iff_maximal_above. }
  destruct (strict_eq _ (JS.index (predict brain inputs) 2) && _) eqn:T2.
  { exists inputs. split; [reflexivity|]. now apply test_iff_maximal_above. }
  exists inputs. split; [reflexivity|].
  repeat split; now apply test_false_iff.
Qed.

(** Two runs of [getOutputs] in candle mode: the second of the outputs
    0.1, 0.7, 0.2 is the maximum and above 0.6; no output of 0.5, 0.3, 0.2
    is above 0.6. *)
Example getOutputs_sell :
  @getOutputs not_called cfg_candles "BTCUSDT" (wide_candles [100; 101])
    (constant_brain [0.1; 0.7; 0.2]) no_extra = Ok (Some SELL).
Proof. reflexivity. Qed.

Example getOutputs_no_decision :
  @getOutputs not_called cfg_candles "BTCUSDT" (wide_candles [100; 101])
    (constant_brain [0.5; 0.3; 0.2]) no_extra = Ok None.
Proof. reflexivity. Qed.

(* ================================================================== *)
(** * Further properties of the code *)

(** ** RSI signals *)

(** X1.  When the RSI series has two trailing values, [isSellSignal] is
    true if and only if the previous value is strictly above 75 and the
    current value strictly below 75. *)
Theorem sell_iff_strict_cross (candles : list Candle) (prev cur : Q) :
  previous (rsi_series candles) = Some prev ->
  current (rsi_series candles) = Some cur ->
  (RsiSignal.isSellSignal candles = Some true
   <-> RsiSignal.RSI_OVERBOUGHT < prev /\ cur < RsiSignal.RSI_OVERBOUGHT).
Proof.
  intros Hp Hc.
  rewrite (isSellSignal_guarded candles (guard_of_two_values candles _ Hp)).
  rewrite Hp, Hc. rewrite <- gt_Some, <- lt_Some, <- andb_true_iff.
  split; [intros E; now injection E | intros E; now rewrite E].
Qed.

Lemma sell_iff_strict_cross_witness :
  RsiSignal.isSellSignal (candles_of_closes closes_80_60) = Some true
  <-> RsiSignal.RSI_OVERBOUGHT < 80 /\ 60 < RsiSignal.RSI_OVERBOUGHT.
Proof.
  apply (sell_iff_strict_cross (candles_of_closes closes_80_60));
    vm_compute; reflexivity.
Defined.

Lemma previous_Some_length (values : list Q) (prev : Q) :
  previous values = Some prev -> (2 <= List.length values)%nat.
Proof.
  unfold previous. intros E. apply index_Some_length in E.
  unfold JS.length in E. lia.
Qed.

Lemma rsi_series_length (candles : list Candle) :
  List.length (rsi_series candles) = (List.length candles - 14)%nat.
Proof. unfold rsi_series. now rewrite calculate_length, length_map. Qed.

Lemma buy_true_inv (candles : list Candle) :
  RsiSignal.isBuySignal candles = Some true ->
  exists prev cur,
    previous (rsi_series candles) = Some prev
    /\ current (rsi_series candles) = Some cur
    /\ prev < RsiSignal.RSI_OVERSOLD /\ RsiSignal.RSI_OVERSOLD < cur.
Proof.
  unfold RsiSignal.isBuySignal.
  destruct (RsiSignal.RSI_PERIOD <=? List.length candles)%nat; [|discriminate].
  intros E. injection E as E. apply andb_true_iff in E as [E1 E2].
  apply lt_true_inv in E1 as (prev & Hp & Hlt).
  apply gt_true_inv in E2 as (cur & Hc & Hgt).
  exists prev, cur. auto.
Qed.

Lemma sell_true_inv (candles : list Candle) :
  RsiSignal.isSellSignal candles = Some true ->
  exists prev cur,
    previous (rsi_series candles) = Some prev
    /\ current (rsi_series candles) = Some cur
    /\ RsiSignal.RSI_OVERBOUGHT < prev /\ cur < RsiSignal.RSI_OVERBOUGHT.
Proof.
  unfold RsiSignal.isSellSignal.
  destruct (RsiSignal.RSI_PERIOD <=? List.length candles)%nat; [|discriminate].
  intros E. injection E as E. apply andb_true_iff in E as [E1 E2].
  apply gt_true_inv in E1 as (prev & Hp & Hgt).
  apply lt_true_inv in E2 as (cur & Hc & Hlt).
  exists prev, cur. auto.
Qed.

(** X2.  A signal is true only on 16 candles or more: 14 periods need 15
    closes for a first RSI value and a crossing needs two values. *)
Theorem true_signal_needs_16_candles (candles : list Candle) :
  RsiSignal.isBuySignal candles = Some true
  \/ RsiSignal.isSellSignal candles = Some true ->
  (16 <= List.length candles)%nat.
Proof.
  intros [B|S].
  - apply buy_true_inv in B as (prev & cur & Hp & _).
    apply previous_Some_length in Hp. rewrite rsi_series_length in Hp. lia.
  - apply sell_true_inv in S as (prev & cur & Hp & _).
    apply previous_Some_length in Hp. rewrite rsi_series_length in Hp. lia.
Qed.

Lemma true_signal_needs_16_candles_witness :
  RsiSignal.isBuySignal (candles_of_closes closes_30_40) = Some true
  /\ (16 <= List.length (candles_of_closes closes_30_40))%nat.
Proof.
  assert (B : RsiSignal.isBuySignal (candles_of_closes closes_30_40) = Some true)
    by (vm_compute; reflexivity).
  split; [exact B|].
  exact (true_signal_needs_16_candles (candles_of_closes closes_30_40)
           (or_introl B)).
Defined.

(** X3.  A true buy signal is a strict crossing of 35 by the last two RSI
    values, which both exist; a true sell signal is a strict crossing of 75
    downwards. *)
Theorem true_signal_is_a_crossing (candles : list Candle) :
  (RsiSignal.isBuySignal candles = Some true ->
   exists prev cur,
     previous (rsi_series candles) = Some prev
     /\ current (rsi_series candles) = Some cur
     /\ prev < RsiSignal.RSI_OVERSOLD /\ RsiSignal.RSI_OVERSOLD < cur)
  /\ (RsiSignal.isSellSignal candles = Some true ->
      exists prev cur,
        previous (rsi_series candles) = Some prev
        /\ current (rsi_series candles) = Some cur
        /\ RsiSignal.RSI_OVERBOUGHT < prev /\ cur < RsiSignal.RSI_OVERBOUGHT).
Proof. split; [apply buy_true_inv|apply sell_true_inv]. Qed.

Lemma true_signal_is_a_crossing_witness :
  (exists prev cur,
     previous (rsi_series (candles_of_closes closes_30_40)) = Some prev
     /\ current (rsi_series (candles_of_closes closes_30_40)) = Some cur
     /\ prev < RsiSignal.RSI_OVERSOLD /\ RsiSignal.RSI_OVERSOLD < cur)
  /\ (exists prev cur,
        previous (rsi_series (candles_of_closes closes_80_60)) = Some prev
        /\ current (rsi_series (candles_of_closes closes_80_60)) = Some cur
        /\ RsiSignal.RSI_OVERBOUGHT < prev /\ cur < RsiSignal.RSI_OVERBOUGHT).
Proof.
  split.
  - apply (proj1 (true_signal_is_a_crossing (candles_of_closes closes_30_40))).
    vm_compute; reflexivity.
  - apply (proj2 (true_signal_is_a_crossing (candles_of_closes closes_80_60))).
    vm_compute; reflexivity.
Defined.

Lemma no_true_signal_below_16 (candles : list Candle) :
  (List.length candles < 16)%nat ->
  RsiSignal.isBuySignal candles <> Some true
  /\ RsiSignal.isSellSignal candles <> Some true.
Proof.
  intros H. split; intros E.
  - apply buy_true_inv in E as (prev & cur & Hp & _).
    apply previous_Some_length in Hp. rewrite rsi_series_length in Hp. lia.
  - apply sell_true_inv in E as (prev & cur & Hp & _).
    apply previous_Some_length in Hp. rewrite rsi_series_length in Hp. lia.
Qed.

Lemma js_or_not_true (a b : option bool) : a <> Some true -> js_or a b = b.
Proof. destruct a as [[|]|]; [congruence|reflexivity|reflexivity]. Qed.

(** ** The signals of the trading loop *)

(** X4.  On fewer than 16 candles the trading loop's [isBuySignal] and
    [isSellSignal] are exactly the verdicts of the SMA module, [undefined]
    included: the RSI side cannot be true there and [||] then yields its
    right operand. *)
Theorem loop_signal_short_history `{SmaSignal} (candles : list Candle) :
  (List.length candles < 16)%nat ->
  Bot.isBuySignal candles = SMA_isBuySignal candles
  /\ Bot.isSellSignal candles = SMA_isSellSignal candles.
Proof.
  intros Hlen. destruct (no_true_signal_below_16 candles Hlen) as [B S].
  unfold Bot.isBuySignal, Bot.isSellSignal.
  split; apply js_or_not_true; assumption.
Qed.

Lemma loop_signal_short_history_witness :
  (List.length (candles_of_closes drift_closes) < 16)%nat
  /\ @Bot.isBuySignal silent_sma (candles_of_closes drift_closes) = None
  /\ @Bot.isSellSignal silent_sma (candles_of_closes drift_closes) = None.
Proof.
  assert (Hlen : (List.length (candles_of_closes drift_closes) < 16)%nat)
    by (vm_compute; lia).
  split; [exact Hlen|].
  exact (@loop_signal_short_history silent_sma
           (candles_of_closes drift_closes) Hlen).
Defined.

(** ** The candle history *)

Lemma set_history_same (h : History) (pair : string) (cs : list Candle) :
  set_history h pair cs pair = Some cs.
Proof. unfold set_history. now rewrite String.eqb_refl. Qed.

Lemma set_history_other (h : History) (pair p : string) (cs : list Candle) :
  p <> pair -> set_history h pair cs p = h p.
Proof.
  intros Hp. unfold set_history.
  destruct (String.eqb_spec p pair); [contradiction|reflexivity].
Qed.

Lemma slice_1 {A : Type} (xs : list A) : JS.slice 1 xs = skipn 1 xs.
Proof.
  unfold JS.slice, JS.length. cbn [Z.ltb Z.compare].
  destruct xs as [|x rest]; [reflexivity|].
  replace (Z.to_nat (Z.min 1 (Z.of_nat (List.length (x :: rest))))) with 1%nat
    by (cbn [List.length]; lia).
  reflexivity.
Qed.

(** What a run of the callback leaves and calls, for an initialised
    pair. *)
Lemma feed_spec (pair : string) (stream : list WsCandle) :
  forall (h : History) (arr : list Candle),
    h pair = Some arr ->
    exists h' calls,
      feed pair h stream = Ok (h', calls)
      /\ h' pair = Some (arr ++ finals stream)
      /\ (forall p, p <> pair -> h' p = h p)
      /\ List.length calls = List.length (finals stream)
      /\ (forall j call,
            nth_error calls j = Some call ->
            call_candles call = skipn 1 (arr ++ firstn (S j) (finals stream))
            /\ option_map close (nth_error (finals stream) j)
               = Some (realtimePrice call)).
Proof.
  induction stream as [|c rest IH]; intros h arr Harr.
  - exists h, []. cbn [feed finals filter map List.length]. rewrite app_nil_r.
    split; [reflexivity|]. split; [exact Harr|]. split; [reflexivity|].
    split; [reflexivity|]. intros [|j] call E; discriminate E.
  - cbn [feed]. unfold onCandle, finals. cbn [filter].
    destruct (isFinal c) eqn:Hfin.
    + rewrite Harr. cbn [prop bind fst snd map].
      destruct (IH (set_history h pair (arr ++ [ChartCandle c]))
                   (arr ++ [ChartCandle c]) (set_history_same _ _ _))
        as (h' & calls & Efeed & Hpair & Hother & Hlen & Hcalls).
      rewrite Efeed. cbn [bind fst snd].
      exists h', (mkTradeCall (JS.slice 1 (arr ++ [ChartCandle c])) (close (bar c))
                  :: calls).
      split; [reflexivity|].
      split; [rewrite Hpair, <- app_assoc; reflexivity|].
      split; [intros p Hp; rewrite (Hother p Hp); now apply set_history_other|].
      split; [cbn [List.length]; unfold finals in Hlen; now rewrite Hlen|].
      intros [|j] call Hnth.
      * injection Hnth as <-. cbn [call_candles realtimePrice firstn nth nth_error].
        split; [apply slice_1|reflexivity].
      * cbn [nth_error] in Hnth. destruct (Hcalls j call Hnth) as [Hc Hp].
        split.
        -- rewrite Hc, <- app_assoc. reflexivity.
        -- exact Hp.
    + cbn [bind fst snd].
      destruct (IH h arr Harr)
        as (h' & calls & Efeed & Hpair & Hother & Hlen & Hcalls).
      rewrite Efeed. cbn [bind fst snd].
      exists h', calls. split; [reflexivity|]. auto.
Qed.

(** X5.  For an initialised pair the callback never raises and never trims:
    after a stream, the history of the pair is the initial array followed
    by every final candle, the histories of the other pairs are untouched,
    and one trade call was made per final candle. *)
Theorem history_grows_with_finals (pair : string) (h : History)
    (arr : list Candle) (stream : list WsCandle) :
  h pair = Some arr ->
  exists h' calls,
    feed pair h stream = Ok (h', calls)
    /\ h' pair = Some (arr ++ finals stream)
    /\ (forall p, p <> pair -> h' p = h p)
    /\ List.length calls = List.length (finals stream).
Proof.
  intros Harr.
  destruct (feed_spec pair stream h Harr) as (h' & calls & E & Hp & Ho & Hl & _).
  exists h', calls. auto.
Qed.

Lemma history_grows_with_finals_witness :
  exists h' calls,
    feed "BTCUSDT" example_history example_stream = Ok (h', calls)
    /\ h' "BTCUSDT"%string
       = Some (candles_of_closes [100; 101; 102] ++ finals example_stream)
    /\ (forall p, p <> "BTCUSDT"%string -> h' p = example_history p)
    /\ List.length calls = List.length (finals example_stream).
Proof.
  apply (@history_grows_with_finals "BTCUSDT" example_history
           (candles_of_closes [100; 101; 102]) example_stream).
  reflexivity.
Defined.

(** X6.  The candles handed to the [j]-th trade call are the history as it
    stands after the [j]-th final candle without its first element only:
    the oldest candle of the initial array is dropped once and the window
    then grows by one candle per call instead of sliding.  The price handed
    over is the close of that final candle. *)
Theorem trade_call_window (pair : string) (h h' : History)
    (arr : list Candle) (stream : list WsCandle) (calls : list TradeCall)
    (j : nat) (call : TradeCall) :
  h pair = Some arr ->
  feed pair h stream = Ok (h', calls) ->
  nth_error calls j = Some call ->
  call_candles call = skipn 1 (arr ++ firstn (S j) (finals stream))
  /\ List.length (call_candles call) = (List.length arr + j)%nat
  /\ option_map close (nth_error (finals stream) j) = Some (realtimePrice call).
Proof.
  intros Harr Efeed Hnth.
  destruct (feed_spec pair stream h Harr)
    as (h1 & calls1 & E & _ & _ & Hlen & Hcalls).
  rewrite Efeed in E. injection E as <- <-.
  destruct (Hcalls j call Hnth) as [Hc Hp].
  split; [exact Hc|]. split; [|exact Hp].
  assert (Hj : (j < List.length (finals stream))%nat).
  { rewrite <- Hlen. apply nth_error_Some. congruence. }
  rewrite Hc, length_skipn, length_app, length_firstn. lia.
Qed.

Lemma trade_call_window_witness :
  exists h' call0 call1,
    feed "BTCUSDT" example_history example_stream = Ok (h', [call0; call1])
    /\ call_candles call1 = candles_of_closes [101; 102; 103; 105]
    /\ List.length (call_candles call1) = (3 + 1)%nat
    /\ Some (105 : Q) = Some (realtimePrice call1).
Proof.
  eexists. eexists. eexists.
  assert (E : feed "BTCUSDT" example_history example_stream
              = Ok (set_history
                      (set_history example_history "BTCUSDT"
                         (candles_of_closes [100; 101; 102; 103]))
                      "BTCUSDT" (candles_of_closes [100; 101; 102; 103; 105]),
                    [ mkTradeCall (candles_of_closes [101; 102; 103]) 103;
                      mkTradeCall (candles_of_closes [101; 102; 103; 105]) 105 ]))
    by reflexivity.
  split; [exact E|].
  exact (@trade_call_window "BTCUSDT" example_history _
           (candles_of_closes [100; 101; 102]) example_stream _ 1%nat _
           eq_refl E eq_refl).
Defined.

(** X7.  [MAX_CANDLES_HISTORY] bounds the history at load time only: after
    [loadCandles] with a positive bound and a stream, the history of the
    pair holds [min(MAX_CANDLES_HISTORY, loaded)] candles plus one per
    final candle of the stream. *)
Theorem history_exceeds_max (maxHistory : Z) (pair : string) (h : History)
    (candles : list Candle) (stream : list WsCandle) :
  (0 < maxHistory)%Z ->
  exists h' calls arr,
    feed pair (loadCandles maxHistory h pair candles) stream = Ok (h', calls)
    /\ h' pair = Some arr
    /\ Z.of_nat (List.length arr)
       = (Z.min maxHistory (JS.length candles)
          + Z.of_nat (List.length (finals stream)))%Z.
Proof.
  intros Hmax.
  destruct (feed_spec pair stream (loadCandles maxHistory h pair candles)
              (set_history_same h pair (JS.slice (- maxHistory) candles)))
    as (h' & calls & E & Hp & _).
  exists h', calls, (JS.slice (- maxHistory) candles ++ finals stream).
  split; [exact E|]. split; [exact Hp|].
  rewrite length_app, (slice_negative _ Hmax). unfold lastn, JS.length.
  rewrite length_skipn. lia.
Qed.

Lemma history_exceeds_max_witness :
  (0 < 2)%Z
  /\ exists h' calls arr,
       feed "BTCUSDT"
            (loadCandles 2 (fun _ => None) "BTCUSDT"
               (candles_of_closes [100; 101; 102]))
            example_stream = Ok (h', calls)
       /\ h' "BTCUSDT"%string = Some arr
       /\ Z.of_nat (List.length arr) = 4%Z.
Proof.
  assert (Hmax : (0 < 2)%Z) by reflexivity.
  split; [exact Hmax|].
  exact (@history_exceeds_max 2 "BTCUSDT" (fun _ => None)
           (candles_of_closes [100; 101; 102]) example_stream Hmax).
Defined.

(** ** Decimals of a number and order quantity *)

Lemma split_not_nil (sep : ascii) (s : string) : split sep s <> [].
Proof.
  destruct s as [|c rest]; cbn [split]; [discriminate|].
  destruct (Ascii.eqb c sep); [discriminate|].
  destruct (split sep rest); discriminate.
Qed.

Lemma split_dotless (s : string) : dotless s = true -> split "." s = [s].
Proof.
  induction s as [|c rest IH]; [reflexivity|].
  cbn [dotless split]. intros H. apply andb_true_iff in H as [Hc Hrest].
  apply negb_true_iff in Hc. rewrite Hc, (IH Hrest). reflexivity.
Qed.

Lemma split_app_dot (s1 rest : string) :
  dotless s1 = true ->
  split "." (s1 ++ String "." rest) = s1 :: split "." rest.
Proof.
  induction s1 as [|c s1 IH]; intros H.
  - reflexivity.
  - cbn [dotless] in H. apply andb_true_iff in H as [Hc Hrest].
    apply negb_true_iff in Hc.
    cbn [append split]. rewrite Hc, (IH Hrest). reflexivity.
Qed.

(** X8.  [getPrecision] counts the characters that follow the dot of
    [String(number)], whatever they are, and gives 0 for a string without
    a dot, such as an integer or a number printed in exponent notation
    without a fraction. *)
Theorem getPrecision_counts_after_dot `{NumberFormat} (number : Q)
    (s1 s2 : string) :
  dotless s1 = true ->
  dotless s2 = true ->
  (toString number = s1 -> getPrecision number = 0%nat)
  /\ (toString number = (s1 ++ String "." s2)%string ->
      getPrecision number = String.length s2).
Proof.
  intros H1 H2. unfold getPrecision, decimals. split; intros ->.
  - now rewrite (split_dotless s1 H1).
  - now rewrite (split_app_dot s1 s2 H1), (split_dotless s2 H2).
Qed.

Lemma getPrecision_counts_after_dot_witness :
  @getPrecision example_format 0 = 0%nat
  /\ @getPrecision example_format 0.001 = 3%nat.
Proof.
  split.
  - apply (proj1 (@getPrecision_counts_after_dot example_format 0 "0" "001"
                    eq_refl eq_refl)).
    reflexivity.
  - apply (proj2 (@getPrecision_counts_after_dot example_format 0.001 "0" "001"
                    eq_refl eq_refl)).
    reflexivity.
Defined.

(** [find] returns the first element that satisfies the test. *)
Lemma find_first {A : Type} (p : A -> bool) (xs : list A) (x : A) :
  JS.find p xs = Some x <->
  exists pre post,
    xs = pre ++ x :: post /\ p x = true /\ Forall (fun y => p y = false) pre.
Proof.
  unfold JS.find. induction xs as [|a rest IH]; cbn [find].
  - split; [discriminate|]. intros (pre & post & E & _). now destruct pre.
  - destruct (p a) eqn:Ha.
    + split.
      * intros E. injection E as <-. exists [], rest. auto.
      * intros (pre & post & E & Hx & Hpre).
        destruct pre as [|b pre]; cbn in E; injection E as <- E'.
        -- reflexivity.
        -- apply Forall_inv in Hpre. congruence.
    + rewrite IH. split.
      * intros (pre & post & -> & Hx & Hpre).
        exists (a :: pre), post. auto.
      * intros (pre & post & E & Hx & Hpre).
        destruct pre as [|b pre]; cbn in E; injection E as <- E'.
        -- congruence.
        -- exists pre, post. split; [exact E'|]. split; [exact Hx|].
           now apply Forall_inv_tail in Hpre.
Qed.

Lemma find_None {A : Type} (p : A -> bool) (xs : list A) :
  JS.find p xs = None <-> Forall (fun y => p y = false) xs.
Proof.
  unfold JS.find. induction xs as [|a rest IH]; cbn [find].
  - split; auto.
  - destruct (p a) eqn:Ha.
    + split; [discriminate|]. intros F. apply Forall_inv in F. congruence.
    + rewrite IH. split; [now constructor|apply Forall_inv_tail].
Qed.

(** X9.  [getQuantity] raises a [TypeError] exactly when the exchange
    information has no entry for the pair, or when the first entry for the
    pair has no [LOT_SIZE] filter. *)
Theorem getQuantity_raises_iff `{NumberFormat} (pair : string)
    (availableBalance allocation price : Q) (exchangeInfo : ExchangeInfo) :
  getQuantity pair availableBalance allocation price exchangeInfo = TypeError
  <-> Forall (fun s => ExchangeSymbol.symbol s <> pair) (symbols exchangeInfo)
      \/ exists pre sym post,
           symbols exchangeInfo = pre ++ sym :: post
           /\ Forall (fun s => ExchangeSymbol.symbol s <> pair) pre
           /\ ExchangeSymbol.symbol sym = pair
           /\ Forall (fun f => SymbolFilter.filterType f <> "LOT_SIZE"%string)
                     (ExchangeSymbol.filters sym).
Proof.
  assert (Hneq : forall (A : Type) (k : A -> string) (v : string) (xs : list A),
             Forall (fun y => String.eqb (k y) v = false) xs
             <-> Forall (fun y => k y <> v) xs).
  { intros A k v xs. rewrite !Forall_forall.
    split; intros F y Hy; apply String.eqb_neq; now apply F. }
  unfold getQuantity.
  destruct (JS.find _ (symbols exchangeInfo)) as [sym|] eqn:Esym; cbn [prop bind].
  - apply find_first in Esym as (pre & post & Esplit & Hsym & Hpre).
    apply String.eqb_eq in Hsym. apply Hneq in Hpre.
    destruct (JS.find _ (ExchangeSymbol.filters sym)) as [lot|] eqn:Elot;
      cbn [prop bind].
    + apply find_first in Elot as (fpre & fpost & Ef & Hlot & _).
      apply String.eqb_eq in Hlot.
      split; [discriminate|]. intros [Hall|(pre' & sym' & post' & E' & Hpre' & Hs' & Hf')].
      * rewrite Esplit in Hall. apply Forall_app in Hall as [_ Hall].
        apply Forall_inv in Hall. contradiction.
      * exfalso.
        assert (pre' = pre /\ sym' = sym) as [-> ->].
        { rewrite Esplit in E'. clear - E' Hpre Hpre' Hsym Hs'.
          revert pre' E' Hpre'. induction pre as [|a pre IH]; intros pre' E' Hpre'.
          - destruct pre' as [|b pre']; cbn in E'; injection E' as -> E'.
            + auto.
            + apply Forall_inv in Hpre'. contradiction.
          - destruct pre' as [|b pre']; cbn in E'; injection E' as -> E'.
            + apply Forall_inv in Hpre. contradiction.
            + apply Forall_inv_tail in Hpre, Hpre'.
              destruct (IH Hpre pre' E' Hpre') as [-> ->]. auto. }
        rewrite Ef in Hf'. apply Forall_app in Hf' as [_ Hf'].
        apply Forall_inv in Hf'. contradiction.
    + apply find_None in Elot. apply Hneq in Elot.
      split; [intros _|reflexivity].
      right. exists pre, sym, post. auto.
  - apply find_None in Esym. apply Hneq in Esym.
    split; [intros _; now left|reflexivity].
Qed.

(** X10.  A quantity that [getQuantity] returns is never below the
    [LOT_SIZE] minimum of the pair, whatever the balance and the
    allocation: it is the rounded share of the balance when that exceeds
    the minimum and the minimum itself otherwise. *)
Theorem getQuantity_at_least_min `{NumberFormat} (pair : string)
    (availableBalance allocation price : Q) (exchangeInfo : ExchangeInfo)
    (q : Q) :
  ~ price == 0 ->
  getQuantity pair availableBalance allocation price exchangeInfo = Ok q ->
  exists sym lot,
    In sym (symbols exchangeInfo)
    /\ ExchangeSymbol.symbol sym = pair
    /\ In lot (ExchangeSymbol.filters sym)
    /\ SymbolFilter.filterType lot = "LOT_SIZE"%string
    /\ JS_Number (SymbolFilter.minQty lot) <= q
    /\ (q = JS_Number (SymbolFilter.minQty lot)
        \/ q = JS_Number
                 (toFixed ((availableBalance * allocation) / price)
                    (getPrecision (JS_Number (SymbolFilter.minQty lot))))).
Proof.
  intros _. unfold getQuantity, getPrecision.
  destruct (JS.find _ (symbols exchangeInfo)) as [sym|] eqn:Esym;
    cbn [prop bind]; [|discriminate].
  destruct (JS.find _ (ExchangeSymbol.filters sym)) as [lot|] eqn:Elot;
    cbn [prop bind]; [|discriminate].
  intros E. apply Ok_inj in E.
  apply find_first in Esym as (pre & post & Esplit & Hsym & _).
  apply find_first in Elot as (fpre & fpost & Ef & Hlot & _).
  apply String.eqb_eq in Hsym. apply String.eqb_eq in Hlot.
  exists sym, lot.
  split; [rewrite Esplit; apply in_elt|]. split; [exact Hsym|].
  split; [rewrite Ef; apply in_elt|]. split; [exact Hlot|].
  destruct (JS.Qltb _ _) eqn:Hlt; subst q.
  - apply Qltb_iff in Hlt. split; [now apply Qlt_le_weak|now right].
  - split; [apply Qle_refl|now left].
Qed.

Lemma getQuantity_at_least_min_witness :
  ~ 50000 == 0
  /\ @getQuantity example_format "BTCUSDT" 10 0.1 50000 example_exchange
     = Ok 0.001
  /\ exists sym lot,
       In sym (symbols example_exchange)
       /\ ExchangeSymbol.symbol sym = "BTCUSDT"%string
       /\ In lot (ExchangeSymbol.filters sym)
       /\ SymbolFilter.filterType lot = "LOT_SIZE"%string
       /\ @JS_Number example_format (SymbolFilter.minQty lot) <= 0.001
       /\ (0.001 = @JS_Number example_format (SymbolFilter.minQty lot)
           \/ 0.001 = @JS_Number example_format
                        (@toFixed example_format ((10 * 0.1) / 50000)
                           (@getPrecision example_format
                              (@JS_Number example_format
                                 (SymbolFilter.minQty lot))))).
Proof.
  assert (Hp : ~ 50000 == 0) by discriminate.
  assert (E : @getQuantity example_format "BTCUSDT" 10 0.1 50000 example_exchange
              = Ok 0.001) by reflexivity.
  split; [exact Hp|]. split; [exact E|].
  exact (@getQuantity_at_least_min example_format "BTCUSDT" 10 0.1 50000
           example_exchange 0.001 Hp E).
Defined.

(** ** The holding flag *)

Lemma neq_Forall {A : Type} (k : A -> string) (v : string) (xs : list A) :
  Forall (fun y => String.eqb (k y) v = false) xs
  <-> Forall (fun y => k y <> v) xs.
Proof.
  rewrite !Forall_forall.
  split; intros F y Hy; apply String.eqb_neq; now apply F.
Qed.

(** X11.  The holding-trade lookup raises a [TypeError] exactly when a spot
    wallet is supplied that has no balance for the pair, or a futures
    wallet is supplied that has no position for the pair. *)
Theorem holdingTrade_raises_iff (pair : string) (extra : Extra) :
  holdingTrade pair extra = TypeError
  <-> (exists w, wallet extra = Some w
                 /\ Forall (fun bal => Balance.symbol bal <> pair)
                           (Wallet.balances w))
      \/ (exists fw, futuresWallet extra = Some fw
                     /\ Forall (fun pos => Position.pair pos <> pair)
                               (FuturesWallet.positions fw)).
Proof.
  unfold holdingTrade. destruct extra as [[w|] [fw|]]; cbn [wallet futuresWallet].
  all: repeat match goal with
       | |- context [JS.find ?p ?l] =>
           let E := fresh "E" in destruct (JS.find p l) eqn:E; cbn [prop bind]
       end.
  all: repeat match goal with
       | E : JS.find _ _ = None |- _ => apply find_None, neq_Forall in E
       | E : JS.find _ _ = Some _ |- _ =>
           let pre := fresh "pre" in let post := fresh "post" in
           let Es := fresh "Es" in let Hx := fresh "Hx" in
           apply find_first in E as (pre & post & Es & Hx & _);
           apply String.eqb_eq in Hx
       end.
  all: split; [intros R; try discriminate R|intros R; try reflexivity].
  all: try (left; eexists; split; [reflexivity|assumption]).
  all: try (right; eexists; split; [reflexivity|assumption]).
  all: exfalso; destruct R as [(w' & Ew & F)|(fw' & Efw & F)];
    try discriminate;
    try (injection Ew as <-); try (injection Efw as <-);
    match goal with
    | Es : _ = _ ++ _ :: _ |- _ =>
        rewrite Es in F; apply Forall_app in F as [_ F];
        apply Forall_inv in F; contradiction
    end.
Qed.

(** X12.  When a futures wallet is supplied, its first position for the
    pair alone decides the flag: the trade is held exactly when the size
    is not zero, a short position included, whatever the spot balance. *)
Theorem futures_position_decides (pair : string) (extra : Extra)
    (fw : FuturesWallet.t) (pre post : list Position.t) (pos : Position.t)
    (holding : bool) :
  futuresWallet extra = Some fw ->
  FuturesWallet.positions fw = pre ++ pos :: post ->
  Forall (fun p => Position.pair p <> pair) pre ->
  Position.pair pos = pair ->
  holdingTrade pair extra = Ok holding ->
  (holding = true <-> ~ Position.size pos == 0).
Proof.
  intros Hfw Hsplit Hpre Hpos. unfold holdingTrade. rewrite Hfw.
  assert (Efind : JS.find (fun p => String.eqb (Position.pair p) pair)
                          (FuturesWallet.positions fw) = Some pos).
  { apply find_first. exists pre, post. split; [exact Hsplit|].
    split; [now apply String.eqb_eq|now apply neq_Forall]. }
  rewrite Efind.
  destruct (wallet extra) as [w|].
  - destruct (JS.find _ (Wallet.balances w)); cbn [prop bind]; [|discriminate].
    intros E. apply Ok_inj in E. subst holding.
    rewrite negb_true_iff, <- not_true_iff_false, Qeq_bool_iff. tauto.
  - cbn [prop bind]. intros E. apply Ok_inj in E. subst holding.
    rewrite negb_true_iff, <- not_true_iff_false, Qeq_bool_iff. tauto.
Qed.

Lemma futures_position_decides_witness :
  holdingTrade "BTCUSDT" example_wallets = Ok true
  /\ (true = true <-> ~ (-2) == 0).
Proof.
  assert (E : holdingTrade "BTCUSDT" example_wallets = Ok true) by reflexivity.
  split; [exact E|].
  apply (@futures_position_decides "BTCUSDT" example_wallets
           (FuturesWallet.mk [Position.mk "ETHUSDT" 0; Position.mk "BTCUSDT" (-2)])
           [Position.mk "ETHUSDT" 0] [] (Position.mk "BTCUSDT" (-2)) true).
  - reflexivity.
  - reflexivity.
  - constructor; [discriminate|constructor].
  - reflexivity.
  - exact E.
Defined.

(** X13.  Without a futures wallet the first spot balance for the pair
    decides the flag: the trade is held exactly when its quantity is
    positive; without any wallet nothing is held. *)
Theorem spot_balance_decides (pair : string) (extra : Extra) :
  futuresWallet extra = None ->
  match wallet extra with
  | None => holdingTrade pair extra = Ok false
  | Some w =>
      forall pre post bal,
        Wallet.balances w = pre ++ bal :: post ->
        Forall (fun b => Balance.symbol b <> pair) pre ->
        Balance.symbol bal = pair ->
        exists holding,
          holdingTrade pair extra = Ok holding
          /\ (holding = true <-> 0 < Balance.quantity bal)
  end.
Proof.
  intros Hfw. unfold holdingTrade. rewrite Hfw.
  destruct (wallet extra) as [w|]; [|reflexivity].
  intros pre post bal Hsplit Hpre Hbal.
  assert (Efind : JS.find (fun b => String.eqb (Balance.symbol b) pair)
                          (Wallet.balances w) = Some bal).
  { apply find_first. exists pre, post. split; [exact Hsplit|].
    split; [now apply String.eqb_eq|now apply neq_Forall]. }
  rewrite Efind. cbn [prop bind].
  eexists. split; [reflexivity|]. apply Qltb_iff.
Qed.

Lemma spot_balance_decides_witness :
  futuresWallet (mkExtra (Some (Wallet.mk [Balance.mk "BTCUSDT" 0.5])) None) = None
  /\ exists holding,
       holdingTrade "BTCUSDT"
         (mkExtra (Some (Wallet.mk [Balance.mk "BTCUSDT" 0.5])) None)
       = Ok holding
       /\ (holding = true <-> 0 < 0.5).
Proof.
  split; [reflexivity|].
  apply (@spot_balance_decides "BTCUSDT"
           (mkExtra (Some (Wallet.mk [Balance.mk "BTCUSDT" 0.5])) None)
           eq_refl [] [] (Balance.mk "BTCUSDT" 0.5)).
  - reflexivity.
  - constructor.
  - reflexivity.
Defined.

(** ** The decision and the inputs of the network *)

(** Closes the four equivalences on the decision once the outcome of the
    tests is known. *)
Ltac settle_decision :=
  split; [|split; [|split]];
  (split;
   [ intros E; cbv iota in E; try discriminate E; tauto
   | intros E; cbv iota; try reflexivity; exfalso; tauto ]).

(** X14.  The three tests of [getOutputs] are tried in order, so a tie goes
    to the earlier action: BUY exactly when the first output is maximal and
    above 0.6, SELL exactly when the second is and the first is not, CLOSE
    exactly when the third is and neither of the others is, and no decision
    exactly when none is. *)
Theorem getOutputs_priority `{Indicators} (cfg : Config.NeuralNetwork)
    (pair : string) (candles : list Candle) (brain : NeuralNetwork)
    (extra : Extra) (inputs : list JSValue) :
  networkInputs cfg pair candles extra = Ok inputs ->
  (getOutputs cfg pair candles brain extra = Ok (Some BUY)
   <-> maximal_above (predict brain inputs) 0)
  /\ (getOutputs cfg pair candles brain extra = Ok (Some SELL)
      <-> maximal_above (predict brain inputs) 1
          /\ ~ maximal_above (predict brain inputs) 0)
  /\ (getOutputs cfg pair candles brain extra = Ok (Some CLOSE)
      <-> maximal_above (predict brain inputs) 2
          /\ ~ maximal_above (predict brain inputs) 0
          /\ ~ maximal_above (predict brain inputs) 1)
  /\ (getOutputs cfg pair candles brain extra = Ok None
      <-> ~ maximal_above (predict brain inputs) 0
          /\ ~ maximal_above (predict brain inputs) 1
          /\ ~ maximal_above (predict brain inputs) 2).
Proof.
  intros Hin. unfold getOutputs.
  change (if String.eqb (NEURAL_NETWORK_INPUTS_MODE cfg) "candles"
          then xs <- getInputsFromCandles cfg pair candles 20 extra ;;
               Ok (map JNumber xs)
          else getInputsFromIndicators cfg pair candles extra)
    with (networkInputs cfg pair candles extra).
  rewrite Hin. cbn [bind].
  destruct (strict_eq _ (JS.index (predict brain inputs) 0) && _) eqn:T0;
    [apply test_iff_maximal_above in T0; settle_decision|].
  apply test_false_iff in T0.
  destruct (strict_eq _ (JS.index (predict brain inputs) 1) && _) eqn:T1;
    [apply test_iff_maximal_above in T1; settle_decision|].
  apply test_false_iff in T1.
  destruct (strict_eq _ (JS.index (predict brain inputs) 2) && _) eqn:T2;
    [apply test_iff_maximal_above in T2; settle_decision|].
  apply test_false_iff in T2. settle_decision.
Qed.

Lemma getOutputs_priority_witness :
  @networkInputs not_called cfg_candles "BTCUSDT" (wide_candles [100; 101])
    no_extra = Ok [JNumber 100; JNumber 101; JNumber 0]
  /\ @getOutputs not_called cfg_candles "BTCUSDT" (wide_candles [100; 101])
       (constant_brain [0.7; 0.7; 0.1]) no_extra = Ok (Some BUY)
  /\ maximal_above [0.7; 0.7; 0.1] 0
  /\ maximal_above [0.7; 0.7; 0.1] 1.
Proof.
  assert (Hin : @networkInputs not_called cfg_candles "BTCUSDT"
                  (wide_candles [100; 101]) no_extra
                = Ok [JNumber 100; JNumber 101; JNumber 0]) by reflexivity.
  assert (B : @getOutputs not_called cfg_candles "BTCUSDT"
                (wide_candles [100; 101]) (constant_brain [0.7; 0.7; 0.1])
                no_extra = Ok (Some BUY)) by reflexivity.
  assert (M1 : maximal_above [0.7; 0.7; 0.1] 1).
  { exists 0.7. split; [reflexivity|]. split; [|reflexivity].
    intros x [<-|[<-|[<-|[]]]]; discriminate. }
  split; [exact Hin|]. split; [exact B|]. split; [|exact M1].
  exact (proj1 (proj1 (@getOutputs_priority not_called cfg_candles "BTCUSDT"
                         (wide_candles [100; 101])
                         (constant_brain [0.7; 0.7; 0.1]) no_extra _ Hin)) B).
Defined.

Lemma lastn_length {A : Type} (n : nat) (xs : list A) :
  List.length (lastn n xs) = Nat.min n (List.length xs).
Proof. unfold lastn. rewrite length_skipn. lia. Qed.

(** X15.  In candle mode the inputs that [getOutputs] passes to the network
    hold [min(20, len(candles))] prices and the holding flag; their number
    is [NUMBER_INPUTS], which is 21 there, exactly when there are at least
    20 candles. *)
Theorem candle_mode_inputs_length `{Indicators} (cfg : Config.NeuralNetwork)
    (pair : string) (candles : list Candle) (extra : Extra)
    (inputs : list JSValue) :
  NEURAL_NETWORK_INPUTS_MODE cfg = "candles"%string ->
  networkInputs cfg pair candles extra = Ok inputs ->
  List.length inputs = (Nat.min 20 (List.length candles) + 1)%nat
  /\ (List.length inputs = NUMBER_INPUTS cfg
      <-> (20 <= List.length candles)%nat).
Proof.
  intros Hmode. unfold networkInputs, NUMBER_INPUTS, getInputsFromCandles.
  rewrite Hmode. cbn [String.eqb Ascii.eqb Bool.eqb].
  destruct (holdingTrade pair extra) as [holding|]; cbn [bind]; [|discriminate].
  intros E. apply Ok_inj in E. subst inputs.
  assert (L : List.length
                (map JNumber
                   (JS.slice (- (20)) (getCandleSource cfg candles)
                    ++ [flag holding]))
              = (Nat.min 20 (List.length candles) + 1)%nat).
  { rewrite length_map, length_app, (slice_negative _ (eq_refl : (0 < 20)%Z)).
    rewrite lastn_length, getCandleSource_map, length_map.
    unfold JS.length. rewrite length_map. cbn [List.length]. lia. }
  split; [exact L|]. rewrite L. lia.
Qed.

Lemma candle_mode_inputs_length_witness :
  NEURAL_NETWORK_INPUTS_MODE cfg_candles = "candles"%string
  /\ List.length [JNumber 100; JNumber 101; JNumber 0] = (2 + 1)%nat
  /\ (List.length [JNumber 100; JNumber 101; JNumber 0] = NUMBER_INPUTS cfg_candles
      <-> (20 <= 2)%nat).
Proof.
  split; [reflexivity|].
  exact (@candle_mode_inputs_length not_called cfg_candles "BTCUSDT"
           (wide_candles [100; 101]) no_extra
           [JNumber 100; JNumber 101; JNumber 0] eq_refl eq_refl).
Defined.

(** X16.  The [KIJUN] key of the configuration is never read: replacing it
    by any value leaves [NEURAL_NETWORK_INPUTS], [NUMBER_INPUTS], the
    indicator inputs and the decision of [getOutputs] unchanged. *)
Theorem KIJUN_key_is_ignored `{Indicators} (v : option bool)
    (cfg : Config.NeuralNetwork) (pair : string) (candles : list Candle)
    (brain : NeuralNetwork) (extra : Extra) :
  NEURAL_NETWORK_INPUTS (with_KIJUN v cfg) = NEURAL_NETWORK_INPUTS cfg
  /\ NUMBER_INPUTS (with_KIJUN v cfg) = NUMBER_INPUTS cfg
  /\ getInputsFromIndicators (with_KIJUN v cfg) pair candles extra
     = getInputsFromIndicators cfg pair candles extra
  /\ getOutputs (with_KIJUN v cfg) pair candles brain extra
     = getOutputs cfg pair candles brain extra.
Proof. repeat split. Qed.

Lemma last_filter {A : Type} (p : A -> bool) (xs : list A) (d x : A) :
  p x = true -> last (filter p (xs ++ [x])) d = x.
Proof.
  intros Hx. rewrite filter_app. cbn [filter]. rewrite Hx. apply last_last.
Qed.

(** X17.  A list that [getInputsFromIndicators] returns holds no [null] and
    ends with the holding flag, 1 or 0. *)
Theorem indicator_inputs_shape `{Indicators} (cfg : Config.NeuralNetwork)
    (pair : string) (candles : list Candle) (extra : Extra)
    (inputs : list JSValue) :
  getInputsFromIndicators cfg pair candles extra = Ok inputs ->
  Forall (fun i => i <> JNull) inputs
  /\ exists holding,
       holdingTrade pair extra = Ok holding
       /\ last inputs JNull = JNumber (flag holding).
Proof.
  unfold getInputsFromIndicators. cbv zeta.
  repeat match goal with
  | |- context [bind ?r _] =>
      match r with
      | holdingTrade _ _ => fail 1
      | _ => destruct r; cbn [bind]; [|discriminate]
      end
  end.
  destruct (holdingTrade pair extra) as [holding|]; cbn [bind]; [|discriminate].
  intros E. apply Ok_inj in E. subst inputs. split.
  - apply Forall_forall. intros i Hi. apply filter_In in Hi as [_ Hi].
    intros ->. discriminate Hi.
  - exists holding. split; [reflexivity|].
    match goal with
    | |- last (filter not_null [?a; ?b; ?c; ?d; ?e; ?f; ?g; ?h; ?i; ?j; ?k; ?l;
                               ?m; ?n; ?o]) _ = _ =>
        change [a; b; c; d; e; f; g; h; i; j; k; l; m; n; o]
          with ([a; b; c; d; e; f; g; h; i; j; k; l; m; n] ++ [o])
    end.
    now apply last_filter.
Qed.

Lemma indicator_inputs_shape_witness :
  @getInputsFromIndicators not_called cfg_RSI_VOL "BTCUSDT"
    (wide_candles closes_30_40) no_extra
  = Ok [JNumber (6500 # 359); JNumber 250; JNumber 0]
  /\ Forall (fun i => i <> JNull) [JNumber (6500 # 359); JNumber 250; JNumber 0]
  /\ exists holding,
       holdingTrade "BTCUSDT" no_extra = Ok holding
       /\ last [JNumber (6500 # 359); JNumber 250; JNumber 0] JNull
          = JNumber (flag holding).
Proof.
  assert (E : @getInputsFromIndicators not_called cfg_RSI_VOL "BTCUSDT"
                (wide_candles closes_30_40) no_extra
              = Ok [JNumber (6500 # 359); JNumber 250; JNumber 0])
    by (vm_compute; reflexivity).
  split; [exact E|].
  exact (@indicator_inputs_shape not_called cfg_RSI_VOL "BTCUSDT"
           (wide_candles closes_30_40) no_extra _ E).
Defined.

(** X18.  A requested length that is zero or negative does not shorten the
    candle inputs to the last values: [slice] then starts from the front,
    so length 0 keeps the whole series and length [-n] drops the [n] oldest
    values. *)
Theorem candle_inputs_nonpositive_length (cfg : Config.NeuralNetwork)
    (pair : string) (candles : list Candle) (length : Z) (extra : Extra)
    (holding : bool) :
  (length <= 0)%Z ->
  holdingTrade pair extra = Ok holding ->
  getInputsFromCandles cfg pair candles length extra
  = Ok (skipn (Z.to_nat (- length))
              (map (source_value (CANDLE_SOURCE cfg)) candles)
        ++ [flag holding]).
Proof.
  intros Hlen Hh. unfold getInputsFromCandles. rewrite Hh. cbn [bind].
  rewrite getCandleSource_map. do 2 f_equal.
  unfold JS.slice, JS.length.
  destruct (Z.ltb_spec (- length) 0); [lia|].
  set (xs := map (source_value (CANDLE_SOURCE cfg)) candles).
  destruct (Z.le_ge_cases (- length) (Z.of_nat (List.length xs))) as [Hle|Hge].
  - f_equal. lia.
  - rewrite !skipn_all2 by lia. reflexivity.
Qed.

Lemma candle_inputs_nonpositive_length_witness :
  (-1 <= 0)%Z
  /\ holdingTrade "BTCUSDT" no_extra = Ok false
  /\ getInputsFromCandles cfg_candles "BTCUSDT"
       (wide_candles [100; 101; 102]) (-1) no_extra = Ok [101; 102; 0].
Proof.
  assert (Hl : (-1 <= 0)%Z) by discriminate.
  assert (Hh : holdingTrade "BTCUSDT" no_extra = Ok false) by reflexivity.
  split; [exact Hl|]. split; [exact Hh|].
  exact (@candle_inputs_nonpositive_length cfg_candles "BTCUSDT"
           (wide_candles [100; 101; 102]) (-1) no_extra false Hl Hh).
Defined.
